(** * ga4gh.datamodel.rna_quantification

    A shallow embedding of [ga4gh/datamodel/rna_quantification.py]: the
    hydration of store rows into [ExpressionLevel] and RNA quantification
    objects, and the query layer of [SqliteRNABackend] over the two tables
    [RnaQuantification] and [Expression]. *)

From Stdlib Require Import ZArith List Ascii String Floats.
From stdpp Require Import base tactics option list strings gmap.

Open Scope string_scope.
Open Scope list_scope.

(** ** Python values, exceptions and dictionaries *)

Module Py.

(** The values that travel between sqlite and the data model. *)
Inductive pyval : Type :=
| PyNone
| PyBool (b : bool)
| PyInt (z : Z)
| PyFloat (f : float)
| PyStr (s : string).

(** The exceptions that the module raises, catches or lets through. *)
Inductive exn : Type :=
| KeyError (key : string)
| AttributeError
| OperationalError
| ProgrammingError
| RnaQuantificationNotFoundException (rnaQuantificationId : string)
| ExpressionLevelNotFoundException (expressionId : string).

(** A computation either returns or raises. *)
Inductive result (A : Type) : Type :=
| Return (a : A)
| Raise (e : exn).
Arguments Return {A} a.
Arguments Raise {A} e.

Definition bind {A B : Type} (m : result A) (k : A -> result B) : result B :=
  match m with
  | Return a => k a
  | Raise e => Raise e
  end.

(** [try: m  except AttributeError: h] *)
Definition except_AttributeError {A : Type} (m : result A) (h : result A)
  : result A :=
  match m with
  | Raise AttributeError => h
  | _ => m
  end.

(** A list comprehension whose element expression may raise: elements are
    evaluated left to right and the first exception escapes. *)
Fixpoint comprehension {A B : Type} (f : A -> result B) (l : list A)
  : result (list B) :=
  match l with
  | [] => Return []
  | a :: l' =>
      bind (f a) (fun b =>
      bind (comprehension f l') (fun bs => Return (b :: bs)))
  end.

(** [bool(v)] *)
Definition bool_of (v : pyval) : bool :=
  match v with
  | PyNone => false
  | PyBool b => b
  | PyInt z => negb (z =? 0)%Z
  | PyFloat f => negb (f =? 0)%float
  | PyStr s => negb (bool_decide (s = ""))
  end.

(** [v == s] for a string literal [s] *)
Definition eq_str (v : pyval) (s : string) : bool :=
  match v with
  | PyStr t => bool_decide (t = s)
  | _ => false
  end.

(** [d[key]] *)
Definition getitem (d : gmap string pyval) (key : string) : result pyval :=
  match d !! key with
  | Some v => Return v
  | None => Raise (KeyError key)
  end.

(** [dict(pairs)]: pairs are stored one after the other, so a later pair
    replaces an earlier one of the same key. *)
Definition dict (pairs : list (string * pyval)) : gmap string pyval :=
  foldl (fun d kv => <[kv.1 := kv.2]> d) ∅ pairs.

(** [s.split(sep)] for a one-character separator: the accumulator [cur]
    holds, in reverse, the characters read since the last separator. *)
Fixpoint split_from (sep : ascii) (cur : list ascii) (s : string)
  : list string :=
  match s with
  | EmptyString => [string_of_list_ascii (rev cur)]
  | String c s' =>
      if bool_decide (c = sep)
      then string_of_list_ascii (rev cur) :: split_from sep [] s'
      else split_from sep (c :: cur) s'
  end.

Definition str_split (s : string) (sep : ascii) : list string :=
  split_from sep [] s.

(** [v.split(sep)]: only strings have the method. *)
Definition split (v : pyval) (sep : ascii) : result (list string) :=
  match v with
  | PyStr s => Return (str_split s sep)
  | _ => Raise AttributeError
  end.

End Py.
Import Py.

#[global] Instance result_ret : MRet result := @Return.
#[global] Instance result_bind : MBind result := fun A B k m => bind m k.

(** ** The embedded store

    The part of sqlite that the queries of this module exercise: tables of
    rows in store order, [SELECT * FROM t WHERE c1 AND ... AND cn] with
    positional [?] parameters, and [LIMIT ... OFFSET ...]. *)

Module Sqlite.

(** The storage classes of sqlite. A NaN is stored as NULL, so a REAL is
    always comparable. *)
Inductive sqlval : Type :=
| SqlNull
| SqlInteger (z : Z)
| SqlReal (f : float)
| SqlText (s : string).

(** How the [sqlite3] module binds a Python value to a parameter ... *)
Definition of_py (v : pyval) : sqlval :=
  match v with
  | PyNone => SqlNull
  | PyBool b => SqlInteger (if b then 1 else 0)
  | PyInt z => SqlInteger z
  | PyFloat f => SqlReal f
  | PyStr s => SqlText s
  end.

(** ... and how it hands a stored value back. *)
Definition to_py (v : sqlval) : pyval :=
  match v with
  | SqlNull => PyNone
  | SqlInteger z => PyInt z
  | SqlReal f => PyFloat f
  | SqlText s => PyStr s
  end.

(** A row as [sqlite3.Row] presents it: the column names ([row.keys()])
    paired with the values, in column order. *)
Definition Row : Type := list (string * sqlval).

Definition column (col : string) (r : Row) : option sqlval :=
  snd <$> List.find (fun kv => bool_decide (kv.1 = col)) r.

Record table : Type := {
  columns : list string;
  rows : list Row
}.

(** Exact comparison of an INTEGER with a REAL given as [m * 2^e]. *)
Definition Z_SF_compare (z : Z) (f : spec_float) : option comparison :=
  match f with
  | S754_zero _ => Some (z ?= 0)%Z
  | S754_infinity false => Some Lt
  | S754_infinity true => Some Gt
  | S754_nan => None
  | S754_finite s m e =>
      let v := if s then Z.neg m else Z.pos m in
      Some (if (0 <=? e)%Z then (z ?= v * 2 ^ e)%Z
            else (z * 2 ^ (- e) ?= v)%Z)
  end.

(** [a = b] holds. NULL compares to nothing; numbers compare by value;
    a number never equals a text. *)
Definition sql_eq (a b : sqlval) : bool :=
  match a, b with
  | SqlInteger x, SqlInteger y => (x =? y)%Z
  | SqlReal x, SqlReal y => (x =? y)%float
  | SqlInteger x, SqlReal y | SqlReal y, SqlInteger x =>
      match Z_SF_compare x (Prim2SF y) with Some Eq => true | _ => false end
  | SqlText x, SqlText y => bool_decide (x = y)
  | _, _ => false
  end.

(** [a >= b] holds. Across storage classes every number is below every
    text; texts compare byte by byte. *)
Definition sql_ge (a b : sqlval) : bool :=
  match a, b with
  | SqlNull, _ | _, SqlNull => false
  | SqlInteger x, SqlInteger y => (y <=? x)%Z
  | SqlReal x, SqlReal y => (y <=? x)%float
  | SqlInteger x, SqlReal y =>
      match Z_SF_compare x (Prim2SF y) with
      | Some Gt | Some Eq => true
      | _ => false
      end
  | SqlReal x, SqlInteger y =>
      match Z_SF_compare y (Prim2SF x) with
      | Some Lt | Some Eq => true
      | _ => false
      end
  | SqlText x, SqlText y =>
      match String.compare x y with Lt => false | _ => true end
  | SqlText _, _ => true
  | _, SqlText _ => false
  end.

(** One conjunct of a WHERE clause; every [?] is a positional parameter. *)
Inductive cond : Type :=
| CEq (col : string)             (* col = ? *)
| CGe (col : string)             (* col >= ? *)
| CIn (col : string) (n : nat).  (* col in (?,...,?), n placeholders *)

Definition cond_column (c : cond) : string :=
  match c with CEq col | CGe col | CIn col _ => col end.

(** [LIMIT limit_count OFFSET limit_offset]; no count means no cap. *)
Record limit : Type := {
  limit_count : option nat;
  limit_offset : nat
}.

(** [SELECT * FROM from WHERE where_1 AND ... AND where_n limits] *)
Record statement : Type := {
  from : string;
  where_ : list cond;
  limits : option limit
}.

(** [sql += " AND c "] (or [" WHERE c "] for the first conjunct) *)
Definition add_cond (sql : statement) (c : cond) : statement :=
  {| from := from sql; where_ := where_ sql ++ [c]; limits := limits sql |}.

(** [sql += l] for a LIMIT fragment [l] *)
Definition add_limits (sql : statement) (l : option limit) : statement :=
  {| from := from sql; where_ := where_ sql;
     limits := match l with Some _ => l | None => limits sql end |}.

(** A conjunct with its parameters bound. *)
Inductive bound : Type :=
| BEq (col : string) (v : sqlval)
| BGe (col : string) (v : sqlval)
| BIn (col : string) (vs : list sqlval).

(** Binds the parameters to the placeholders from left to right; the
    number of parameters has to be the number of placeholders. *)
Fixpoint bind_params (cs : list cond) (args : list sqlval)
  : option (list bound) :=
  match cs with
  | [] => match args with [] => Some [] | _ :: _ => None end
  | CEq col :: cs' =>
      match args with
      | v :: args' => cons (BEq col v) <$> bind_params cs' args'
      | [] => None
      end
  | CGe col :: cs' =>
      match args with
      | v :: args' => cons (BGe col v) <$> bind_params cs' args'
      | [] => None
      end
  | CIn col n :: cs' =>
      if bool_decide (n <= length args)
      then cons (BIn col (take n args)) <$> bind_params cs' (drop n args)
      else None
  end.

(** The conjunct is true of the row (not false and not NULL). *)
Definition holds (r : Row) (b : bound) : bool :=
  match b with
  | BEq col v =>
      match column col r with Some x => sql_eq x v | None => false end
  | BGe col v =>
      match column col r with Some x => sql_ge x v | None => false end
  | BIn col vs =>
      match column col r with
      | Some x => existsb (sql_eq x) vs
      | None => false
      end
  end.

Definition apply_limits (l : option limit) (rs : list Row) : list Row :=
  match l with
  | None => rs
  | Some l =>
      let rs' := drop (limit_offset l) rs in
      match limit_count l with
      | Some k => take k rs'
      | None => rs'
      end
  end.

(** [connection.execute(sql, args)] followed by reading the cursor to its
    end: the selected rows in store order. An unknown table or column is
    an [OperationalError], a wrong number of parameters a
    [ProgrammingError]. *)
Definition execute (tables : string -> option table) (sql : statement)
  (args : list pyval) : result (list Row) :=
  match tables (from sql) with
  | None => Raise OperationalError
  | Some t =>
      if forallb (fun c => bool_decide (cond_column c ∈ columns t))
           (where_ sql)
      then
        match bind_params (where_ sql) (of_py <$> args) with
        | None => Raise ProgrammingError
        | Some bs =>
            Return (apply_limits (limits sql)
                      (List.filter (fun r => forallb (holds r) bs) (rows t)))
        end
      else Raise OperationalError
  end.

(** [cursor.fetchall()] *)
Definition fetchall (cursor : list Row) : list Row := cursor.

(** [cursor.fetchone()]: the first row, or [None] when there is none. *)
Definition fetchone (cursor : list Row) : option Row := head cursor.

End Sqlite.

(** ** The store schema *)

(** Modelled from the spec: the schema of the store file is not part of
    the module; section 6 of the specification fixes table [Expression]
    with columns [id], [name], [feature_id], [rna_quantification_id],
    [expression] (float), [is_normalized] (integer 0/1), [raw_read_count]
    (float), [score] (float), [units] (integer code), [conf_low] and
    [conf_hi] (floats). *)
Module Expression.

Record row : Type := {
  id : string;
  name : string;
  feature_id : string;
  rna_quantification_id : string;
  expression : float;
  is_normalized : Z;
  raw_read_count : float;
  score : float;
  units : Z;
  conf_low : float;
  conf_hi : float
}.

Definition columns : list string :=
  ["id"; "name"; "feature_id"; "rna_quantification_id"; "expression";
   "is_normalized"; "raw_read_count"; "score"; "units"; "conf_low";
   "conf_hi"].

Definition to_Row (r : row) : Sqlite.Row :=
  [("id", Sqlite.SqlText (id r));
   ("name", Sqlite.SqlText (name r));
   ("feature_id", Sqlite.SqlText (feature_id r));
   ("rna_quantification_id", Sqlite.SqlText (rna_quantification_id r));
   ("expression", Sqlite.SqlReal (expression r));
   ("is_normalized", Sqlite.SqlInteger (is_normalized r));
   ("raw_read_count", Sqlite.SqlReal (raw_read_count r));
   ("score", Sqlite.SqlReal (score r));
   ("units", Sqlite.SqlInteger (units r));
   ("conf_low", Sqlite.SqlReal (conf_low r));
   ("conf_hi", Sqlite.SqlReal (conf_hi r))].

End Expression.

(** Modelled from the spec: table [RnaQuantification] with columns [id],
    [name], [description], [feature_set_ids] (comma-joined string),
    [read_group_ids] (comma-joined string, empty string = no groups) and
    [programs] (comma-joined string, empty = none), as section 6 of the
    specification lists them. *)
Module RnaQuantification.

Record row : Type := {
  id : string;
  name : string;
  description : string;
  feature_set_ids : string;
  read_group_ids : string;
  programs : string
}.

Definition columns : list string :=
  ["id"; "name"; "description"; "feature_set_ids"; "read_group_ids";
   "programs"].

Definition to_Row (r : row) : Sqlite.Row :=
  [("id", Sqlite.SqlText (id r));
   ("name", Sqlite.SqlText (name r));
   ("description", Sqlite.SqlText (description r));
   ("feature_set_ids", Sqlite.SqlText (feature_set_ids r));
   ("read_group_ids", Sqlite.SqlText (read_group_ids r));
   ("programs", Sqlite.SqlText (programs r))].

End RnaQuantification.

(** The contents of one store file: its two tables, rows in store order. *)
Record Db : Type := {
  RnaQuantification_rows : list RnaQuantification.row;
  Expression_rows : list Expression.row
}.

Definition tables (db : Db) (table_name : string) : option Sqlite.table :=
  if bool_decide (table_name = "RnaQuantification") then
    Some {| Sqlite.columns := RnaQuantification.columns;
            Sqlite.rows :=
              RnaQuantification.to_Row <$> RnaQuantification_rows db |}
  else if bool_decide (table_name = "Expression") then
    Some {| Sqlite.columns := Expression.columns;
            Sqlite.rows := Expression.to_Row <$> Expression_rows db |}
  else None.

(** ** ga4gh.sqliteBackend *)

Module sqliteBackend.

(** Modelled from the spec: [sqliteRow2Dict] of [ga4gh.sqliteBackend] is
    not part of the module. It is the row-to-mapping conversion of section
    4.2: the mapping from the row's column names to its values. Reading the
    columns of the [None] that [fetchone] gives when no row matches is the
    [AttributeError] that the callers of this module catch. *)
Definition sqliteRow2Dict (row : option Sqlite.Row)
  : result (gmap string pyval) :=
  match row with
  | None => Raise AttributeError
  | Some r => Return (dict ((fun kv => (kv.1, Sqlite.to_py kv.2)) <$> r))
  end.

(** Modelled from the spec: [sqliteRows2dicts] of [ga4gh.sqliteBackend] is
    not part of the module. It is the conversion of section 4.2 applied to
    every row that [fetchall] gives, in order. *)
Definition sqliteRows2dicts (rows : list Sqlite.Row)
  : result (list (gmap string pyval)) :=
  comprehension (fun r => sqliteRow2Dict (Some r)) rows.

(** Modelled from the spec: [limitsSql] of [ga4gh.sqliteBackend] is not
    part of the module. Section 4.3 of the specification: the fragment is
    [LIMIT pageSize OFFSET pageToken], [pageToken] is a zero-based row
    offset, [pageSize] an absolute row cap, and an unset [pageSize] means
    no limit. *)
Definition limitsSql (pageToken : nat) (pageSize : option nat)
  : option Sqlite.limit :=
  Some {| Sqlite.limit_count := pageSize; Sqlite.limit_offset := pageToken |}.

End sqliteBackend.

(** ** ga4gh.datamodel and ga4gh.protocol *)

Module datamodel.

(** Modelled from the spec: [datamodel.DatamodelObject] and the compound
    id classes are not part of the module. Section 3 of the specification:
    a compound id is the ordered sequence of local-id segments, and the id
    of an object is every ancestor's local id followed by its own, from
    root to leaf. The id is kept as that sequence; a parent container is
    seen through its id, the one thing this module asks of it. The checks
    that the constructors make of a local id and of the kind of the parent
    are not part of the model: an id is built here for the string local
    ids of store rows, under a parent of the kind that the class of the
    object expects. *)
Definition CompoundId : Type := list pyval.

Record Container : Type := {
  container_getId : CompoundId
}.

Definition getId (parentContainer : Container) (localId : pyval)
  : CompoundId :=
  container_getId parentContainer ++ [localId].

End datamodel.

(** The transfer objects of [ga4gh.protocol], as plain records of the
    fields that this module assigns. *)
Module protocol.

Module ExpressionLevel.
Record t : Type := {
  id : datamodel.CompoundId;
  name : pyval;
  feature_id : pyval;
  rna_quantification_id : datamodel.CompoundId;
  raw_read_count : pyval;
  expression : pyval;
  is_normalized : pyval;
  units : pyval;
  score : pyval;
  conf_interval_low : pyval;
  conf_interval_high : pyval
}.
End ExpressionLevel.

Module RnaQuantification.
Record t : Type := {
  id : datamodel.CompoundId;
  name : pyval;
  description : pyval;
  read_group_ids : list string;
  programs : list pyval;
  feature_set_ids : list string;
  rna_quantification_set_id : datamodel.CompoundId
}.
End RnaQuantification.

End protocol.

(** ** class AbstractExpressionLevel *)

Module AbstractExpressionLevel.

Record t : Type := {
  _parentContainer : datamodel.Container;
  _localId : pyval;
  _expression : pyval;
  _featureId : pyval;
  _isNormalized : pyval;
  _rawReadCount : pyval;
  _score : pyval;
  _units : pyval;
  _name : pyval;
  _confIntervalLow : pyval;
  _confIntervalHigh : pyval
}.

(** Attribute assignments [self._x = v]. *)
Definition set_expression (v : pyval) (self : t) : t :=
  {| _parentContainer := _parentContainer self;
     _localId := _localId self;
     _expression := v;
     _featureId := _featureId self;
     _isNormalized := _isNormalized self;
     _rawReadCount := _rawReadCount self;
     _score := _score self;
     _units := _units self;
     _name := _name self;
     _confIntervalLow := _confIntervalLow self;
     _confIntervalHigh := _confIntervalHigh self |}.

Definition set_featureId (v : pyval) (self : t) : t :=
  {| _parentContainer := _parentContainer self;
     _localId := _localId self;
     _expression := _expression self;
     _featureId := v;
     _isNormalized := _isNormalized self;
     _rawReadCount := _rawReadCount self;
     _score := _score self;
     _units := _units self;
     _name := _name self;
     _confIntervalLow := _confIntervalLow self;
     _confIntervalHigh := _confIntervalHigh self |}.

Definition set_isNormalized (v : pyval) (self : t) : t :=
  {| _parentContainer := _parentContainer self;
     _localId := _localId self;
     _expression := _expression self;
     _featureId := _featureId self;
     _isNormalized := v;
     _rawReadCount := _rawReadCount self;
     _score := _score self;
     _units := _units self;
     _name := _name self;
     _confIntervalLow := _confIntervalLow self;
     _confIntervalHigh := _confIntervalHigh self |}.

Definition set_rawReadCount (v : pyval) (self : t) : t :=
  {| _parentContainer := _parentContainer self;
     _localId := _localId self;
     _expression := _expression self;
     _featureId := _featureId self;
     _isNormalized := _isNormalized self;
     _rawReadCount := v;
     _score := _score self;
     _units := _units self;
     _name := _name self;
     _confIntervalLow := _confIntervalLow self;
     _confIntervalHigh := _confIntervalHigh self |}.

Definition set_score (v : pyval) (self : t) : t :=
  {| _parentContainer := _parentContainer self;
     _localId := _localId self;
     _expression := _expression self;
     _featureId := _featureId self;
     _isNormalized := _isNormalized self;
     _rawReadCount := _rawReadCount self;
     _score := v;
     _units := _units self;
     _name := _name self;
     _confIntervalLow := _confIntervalLow self;
     _confIntervalHigh := _confIntervalHigh self |}.

Definition set_units (v : pyval) (self : t) : t :=
  {| _parentContainer := _parentContainer self;
     _localId := _localId self;
     _expression := _expression self;
     _featureId := _featureId self;
     _isNormalized := _isNormalized self;
     _rawReadCount := _rawReadCount self;
     _score := _score self;
     _units := v;
     _name := _name self;
     _confIntervalLow := _confIntervalLow self;
     _confIntervalHigh := _confIntervalHigh self |}.

Definition set_name (v : pyval) (self : t) : t :=
  {| _parentContainer := _parentContainer self;
     _localId := _localId self;
     _expression := _expression self;
     _featureId := _featureId self;
     _isNormalized := _isNormalized self;
     _rawReadCount := _rawReadCount self;
     _score := _score self;
     _units := _units self;
     _name := v;
     _confIntervalLow := _confIntervalLow self;
     _confIntervalHigh := _confIntervalHigh self |}.

Definition set_confIntervalLow (v : pyval) (self : t) : t :=
  {| _parentContainer := _parentContainer self;
     _localId := _localId self;
     _expression := _expression self;
     _featureId := _featureId self;
     _isNormalized := _isNormalized self;
     _rawReadCount := _rawReadCount self;
     _score := _score self;
     _units := _units self;
     _name := _name self;
     _confIntervalLow := v;
     _confIntervalHigh := _confIntervalHigh self |}.

Definition set_confIntervalHigh (v : pyval) (self : t) : t :=
  {| _parentContainer := _parentContainer self;
     _localId := _localId self;
     _expression := _expression self;
     _featureId := _featureId self;
     _isNormalized := _isNormalized self;
     _rawReadCount := _rawReadCount self;
     _score := _score self;
     _units := _units self;
     _name := _name self;
     _confIntervalLow := _confIntervalLow self;
     _confIntervalHigh := v |}.

Definition __init__ (parentContainer : datamodel.Container)
  (localId : pyval) : t :=
  {| _parentContainer := parentContainer;
     _localId := localId;
     _expression := PyFloat 0;
     _featureId := PyStr "";
     _isNormalized := PyStr "";
     _rawReadCount := PyFloat 0;
     _score := PyFloat 0;
     _units := PyInt 0;
     _name := localId;
     _confIntervalLow := PyFloat 0;
     _confIntervalHigh := PyFloat 0 |}.

Definition getId (self : t) : datamodel.CompoundId :=
  datamodel.getId (_parentContainer self) (_localId self).

Definition toProtocolElement (self : t) : protocol.ExpressionLevel.t :=
  {| protocol.ExpressionLevel.id := getId self;
     protocol.ExpressionLevel.name := _name self;
     protocol.ExpressionLevel.feature_id := _featureId self;
     protocol.ExpressionLevel.rna_quantification_id :=
       datamodel.container_getId (_parentContainer self);
     protocol.ExpressionLevel.raw_read_count := _rawReadCount self;
     protocol.ExpressionLevel.expression := _expression self;
     protocol.ExpressionLevel.is_normalized := _isNormalized self;
     protocol.ExpressionLevel.units := _units self;
     protocol.ExpressionLevel.score := _score self;
     protocol.ExpressionLevel.conf_interval_low := _confIntervalLow self;
     protocol.ExpressionLevel.conf_interval_high := _confIntervalHigh self |}.

End AbstractExpressionLevel.

(** ** class ExpressionLevel(AbstractExpressionLevel) *)

Module ExpressionLevel.
Import AbstractExpressionLevel.

Definition __init__ (parentContainer : datamodel.Container)
  (record : gmap string pyval) : result t :=
  localId ← getitem record "id";
  let self := AbstractExpressionLevel.__init__ parentContainer localId in
  v ← getitem record "expression";
  let self := set_expression v self in
  v ← getitem record "id";
  let self := set_featureId v self in
  (* sqlite stores booleans as int (False = 0, True = 1) *)
  v ← getitem record "is_normalized";
  let self := set_isNormalized (PyBool (bool_of v)) self in
  v ← getitem record "raw_read_count";
  let self := set_rawReadCount v self in
  v ← getitem record "score";
  let self := set_score v self in
  v ← getitem record "units";
  let self := set_units v self in
  v ← getitem record "name";
  let self := set_name v self in
  v ← getitem record "conf_low";
  let self := set_confIntervalLow v self in
  v ← getitem record "conf_hi";
  let self := set_confIntervalHigh v self in
  Return self.

Definition getName (self : t) : pyval := _name self.

End ExpressionLevel.

(** ** class SqliteRNABackend

    The interface to the sqlite file that stores the RNA quantifications of
    a dataset. A parameter with a default is an [option]: [None] stands for
    a call that leaves it out. *)

Module SqliteRNABackend.
Import Sqlite sqliteBackend.

(** The data source with its connection open: [_dbconn] reads the two
    tables of the file. *)
Record t : Type := {
  _dbconn : Db
}.

Definition searchRnaQuantificationsInDb (self : t) (pageToken : option nat)
  (pageSize : option nat) (rnaQuantificationId : option string)
  : result (list (gmap string pyval)) :=
  let pageToken := default 0 pageToken in
  let rnaQuantificationId := default "" rnaQuantificationId in
  (* SELECT * FROM RnaQuantification *)
  let sql := {| from := "RnaQuantification"; where_ := []; limits := None |} in
  let sql_args := [] in
  let '(sql, sql_args) :=
    if bool_decide (0 < String.length rnaQuantificationId)
    then (* WHERE id = ? *)
         (add_cond sql (CEq "id"), sql_args ++ [PyStr rnaQuantificationId])
    else (sql, sql_args) in
  let sql := add_limits sql (limitsSql pageToken pageSize) in
  query ← execute (tables (_dbconn self)) sql sql_args;
  except_AttributeError
    (sqliteRows2dicts (fetchall query))
    (Raise (RnaQuantificationNotFoundException rnaQuantificationId)).

Definition getRnaQuantificationById (self : t) (rnaQuantificationId : string)
  : result (gmap string pyval) :=
  (* SELECT * FROM RnaQuantification WHERE id = ? *)
  let sql :=
    {| from := "RnaQuantification"; where_ := [CEq "id"]; limits := None |} in
  query ← execute (tables (_dbconn self)) sql [PyStr rnaQuantificationId];
  except_AttributeError
    (sqliteRow2Dict (fetchone query))
    (Raise (RnaQuantificationNotFoundException rnaQuantificationId)).

Definition searchExpressionLevelsInDb (self : t) (rnaQuantId : string)
  (featureIds : option (list string)) (pageToken : option nat)
  (pageSize : option nat) (threshold : option float)
  : result (list (gmap string pyval)) :=
  let featureIds := default [] featureIds in
  let pageToken := default 0 pageToken in
  let threshold := default 0%float threshold in
  (* SELECT * FROM Expression WHERE rna_quantification_id = ?
     AND expression >= ? *)
  let sql :=
    {| from := "Expression";
       where_ := [CEq "rna_quantification_id"; CGe "expression"];
       limits := None |} in
  let sql_args := [PyStr rnaQuantId; PyFloat threshold] in
  let '(sql, sql_args) :=
    if bool_decide (0 < length featureIds)
    then (* AND feature_id in (?,...,?), one ? for each feature id *)
         (add_cond sql (CIn "feature_id" (length featureIds)),
          foldl (fun sql_args featureId => sql_args ++ [PyStr featureId])
            sql_args featureIds)
    else (sql, sql_args) in
  let sql := add_limits sql (limitsSql pageToken pageSize) in
  query ← execute (tables (_dbconn self)) sql sql_args;
  sqliteRows2dicts (fetchall query).

Definition getExpressionLevelById (self : t) (expressionId : string)
  : result (gmap string pyval) :=
  (* SELECT * FROM Expression WHERE id = ? *)
  let sql := {| from := "Expression"; where_ := [CEq "id"]; limits := None |} in
  query ← execute (tables (_dbconn self)) sql [PyStr expressionId];
  except_AttributeError
    (sqliteRow2Dict (fetchone query))
    (Raise (ExpressionLevelNotFoundException expressionId)).

(** [with db as dataSource]: the data source itself, its connection open.
    An object that was never populated has [None] there, which is no
    context manager. *)
Definition enter (db : option t) : result t :=
  match db with
  | Some dataSource => Return dataSource
  | None => Raise AttributeError
  end.

End SqliteRNABackend.

(** ** class AbstractRNAQuantification *)

Module AbstractRNAQuantification.

Record t : Type := {
  _parentContainer : datamodel.Container;
  _localId : string;
  _featureSetIds : list string;
  _description : pyval;
  _name : pyval;
  _readGroupIds : list string;
  _referenceSet : pyval;
  _programs : list pyval
}.

Definition set_featureSetIds (v : list string) (self : t) : t :=
  {| _parentContainer := _parentContainer self; _localId := _localId self;
     _featureSetIds := v; _description := _description self;
     _name := _name self; _readGroupIds := _readGroupIds self;
     _referenceSet := _referenceSet self; _programs := _programs self |}.

Definition set_description (v : pyval) (self : t) : t :=
  {| _parentContainer := _parentContainer self; _localId := _localId self;
     _featureSetIds := _featureSetIds self; _description := v;
     _name := _name self; _readGroupIds := _readGroupIds self;
     _referenceSet := _referenceSet self; _programs := _programs self |}.

Definition set_name (v : pyval) (self : t) : t :=
  {| _parentContainer := _parentContainer self; _localId := _localId self;
     _featureSetIds := _featureSetIds self; _description := _description self;
     _name := v; _readGroupIds := _readGroupIds self;
     _referenceSet := _referenceSet self; _programs := _programs self |}.

Definition set_readGroupIds (v : list string) (self : t) : t :=
  {| _parentContainer := _parentContainer self; _localId := _localId self;
     _featureSetIds := _featureSetIds self; _description := _description self;
     _name := _name self; _readGroupIds := v;
     _referenceSet := _referenceSet self; _programs := _programs self |}.

Definition set_programs (v : list pyval) (self : t) : t :=
  {| _parentContainer := _parentContainer self; _localId := _localId self;
     _featureSetIds := _featureSetIds self; _description := _description self;
     _name := _name self; _readGroupIds := _readGroupIds self;
     _referenceSet := _referenceSet self; _programs := v |}.

Definition __init__ (parentContainer : datamodel.Container)
  (localId : string) : t :=
  {| _parentContainer := parentContainer;
     _localId := localId;
     _featureSetIds := [];
     _description := PyStr "";
     _name := PyStr localId;
     _readGroupIds := [];
     _referenceSet := PyNone;
     _programs := [] |}.

Definition getLocalId (self : t) : string := _localId self.

Definition getId (self : t) : datamodel.CompoundId :=
  datamodel.getId (_parentContainer self) (PyStr (_localId self)).

Definition toProtocolElement (self : t) : protocol.RnaQuantification.t :=
  {| protocol.RnaQuantification.id := getId self;
     protocol.RnaQuantification.name := _name self;
     protocol.RnaQuantification.description := _description self;
     protocol.RnaQuantification.read_group_ids := [] ++ _readGroupIds self;
     protocol.RnaQuantification.programs := [] ++ _programs self;
     protocol.RnaQuantification.feature_set_ids := [] ++ _featureSetIds self;
     protocol.RnaQuantification.rna_quantification_set_id :=
       datamodel.container_getId (_parentContainer self) |}.

(** The data elements are: Id, annotations, description, name, readGroupId,
    where annotations is a comma separated list. *)
Definition addRnaQuantMetadata (self : t) (fields : gmap string pyval)
  : result t :=
  v ← getitem fields "feature_set_ids";
  l ← split v ",";
  let self := set_featureSetIds l self in
  v ← getitem fields "description";
  let self := set_description v self in
  v ← getitem fields "name";
  let self := set_name v self in
  v ← getitem fields "read_group_ids";
  self ← (if eq_str v ""
          then Return (set_readGroupIds [] self)
          else
            v ← getitem fields "read_group_ids";
            l ← split v ",";
            Return (set_readGroupIds l self));
  v ← getitem fields "programs";
  let self :=
    if eq_str v ""
    then set_programs [] self
    else
      (* Need to use program Id's here to generate a list of Programs;
         for now set to empty *)
      set_programs [] self in
  Return self.

End AbstractRNAQuantification.

(** ** class RNASeqResult(AbstractRNAQuantification) *)

Module RNASeqResult.
Import AbstractRNAQuantification.

(** The attributes of the base class, and the two that the class adds. *)
Record t : Type := {
  super : AbstractRNAQuantification.t;
  _dbFilePath : option string;
  _db : option SqliteRNABackend.t
}.

Definition __init__ (parentContainer : datamodel.Container)
  (localId : string) : t :=
  {| super := AbstractRNAQuantification.__init__ parentContainer localId;
     _dbFilePath := None;
     _db := None |}.

(** The object as the parent container of its expression levels. *)
Definition as_container (self : t) : datamodel.Container :=
  {| datamodel.container_getId := getId (super self) |}.

Definition getRnaQuantMetadata (self : t) : result t :=
  let rnaQuantId := getLocalId (super self) in
  dataSource ← SqliteRNABackend.enter (_db self);
  rnaQuantReturned ←
    SqliteRNABackend.getRnaQuantificationById dataSource rnaQuantId;
  super' ← addRnaQuantMetadata (super self) rnaQuantReturned;
  Return {| super := super'; _dbFilePath := _dbFilePath self;
            _db := _db self |}.

Definition getDataUrl (self : t) : option string := _dbFilePath self.

(** Returns the list of ExpressionLevels in this RNA Quantification. *)
Definition getExpressionLevels (self : t) (rnaQuantID : string)
  (pageToken : option nat) (pageSize : option nat)
  (threshold : option float) (featureIds : option (list string))
  : result (list AbstractExpressionLevel.t) :=
  let pageToken := default 0 pageToken in
  let threshold := default 0%float threshold in
  let featureIds := default [] featureIds in
  dataSource ← SqliteRNABackend.enter (_db self);
  expressionsReturned ←
    SqliteRNABackend.searchExpressionLevelsInDb dataSource rnaQuantID
      (Some featureIds) (Some pageToken) pageSize (Some threshold);
  comprehension
    (fun expressionEntry =>
       ExpressionLevel.__init__ (as_container self) expressionEntry)
    expressionsReturned.

Definition getExpressionLevel (self : t) (expression_level_id : string)
  : result AbstractExpressionLevel.t :=
  let expressionId := expression_level_id in
  dataSource ← SqliteRNABackend.enter (_db self);
  expressionReturned ←
    SqliteRNABackend.getExpressionLevelById dataSource expressionId;
  ExpressionLevel.__init__ (as_container self) expressionReturned.

End RNASeqResult.

(** ** The query shapes of the specification

    Section 4.3 of the specification describes the list queries by their
    result: the rows of a table that satisfy the scope and the optional
    filters, in store order, cut to the page. These definitions follow its
    words; the theorems below compare the code with them. *)

Module Spec.

(** [LIMIT pageSize OFFSET pageToken]: [pageToken] is a zero-based row
    offset, [pageSize] an absolute row cap, an unset [pageSize] no limit. *)
Definition page {A : Type} (pageToken : nat) (pageSize : option nat)
  (l : list A) : list A :=
  match pageSize with
  | Some k => take k (drop pageToken l)
  | None => drop pageToken l
  end.

(** The WHERE clause of [ScopedList] over table [Expression]: the scope,
    the threshold clause when a threshold is given, and the [IN] clause
    when an id-filter set is given. A clause that is left out restricts
    nothing. *)
Definition scoped (scopeValue : string) (thresholdValue : option float)
  (idFilterSet : option (list string)) (r : Expression.row) : bool :=
  bool_decide (Expression.rna_quantification_id r = scopeValue)
  && match thresholdValue with
     | Some t => (t <=? Expression.expression r)%float
     | None => true
     end
  && match idFilterSet with
     | Some ids => bool_decide (Expression.feature_id r ∈ ids)
     | None => true
     end.

Definition ScopedList (table : list Expression.row) (scopeValue : string)
  (thresholdValue : option float) (idFilterSet : option (list string))
  (pageToken : nat) (pageSize : option nat) : list Expression.row :=
  page pageToken pageSize
    (List.filter (scoped scopeValue thresholdValue idFilterSet) table).

End Spec.

(** ** Rows as the data model receives them *)

(** The mapping that the store adapter makes of a row of a table. *)
Definition record_of (r : Sqlite.Row) : gmap string pyval :=
  dict ((fun kv => (kv.1, Sqlite.to_py kv.2)) <$> r).

Definition Expression_record (r : Expression.row) : gmap string pyval :=
  record_of (Expression.to_Row r).

Definition RnaQuantification_record (r : RnaQuantification.row)
  : gmap string pyval :=
  record_of (RnaQuantification.to_Row r).

(** The id filter that a call of [searchExpressionLevelsInDb] applies:
    none when the list of feature ids is empty or left out. *)
Definition id_filter (featureIds : option (list string))
  : option (list string) :=
  match featureIds with
  | Some (f :: fs) => Some (f :: fs)
  | _ => None
  end.

(** The rows of [RnaQuantification] that [searchRnaQuantificationsInDb]
    selects: all of them when the id is empty or left out. *)
Definition quantification_selected (rnaQuantificationId : option string)
  (r : RnaQuantification.row) : bool :=
  match rnaQuantificationId with
  | Some (String c s) => bool_decide (RnaQuantification.id r = String c s)
  | _ => true
  end.

(** ** A small store

    The store of the end-to-end scenario of the specification: one
    quantification ["rq1"] with two expression rows (feature ["f1"],
    expression 2.0; feature ["f2"], expression 0.1). A second store adds a
    quantification ["rq2"] with one row whose expression value is on a
    logarithmic scale and below zero. *)

Module Sample.

Definition e1 : Expression.row :=
  {| Expression.id := "e1";
     Expression.name := "gene-1";
     Expression.feature_id := "f1";
     Expression.rna_quantification_id := "rq1";
     Expression.expression := 2%float;
     Expression.is_normalized := 1;
     Expression.raw_read_count := 20%float;
     Expression.score := 0.5%float;
     Expression.units := 2;
     Expression.conf_low := 1.5%float;
     Expression.conf_hi := 2.5%float |}.

(** 0x1.999999999999ap-4 is the binary64 value of 0.1. *)
Definition e2 : Expression.row :=
  {| Expression.id := "e2";
     Expression.name := "gene-2";
     Expression.feature_id := "f2";
     Expression.rna_quantification_id := "rq1";
     Expression.expression := 0x1.999999999999ap-4%float;
     Expression.is_normalized := 0;
     Expression.raw_read_count := 1%float;
     Expression.score := 0.25%float;
     Expression.units := 2;
     Expression.conf_low := 0%float;
     Expression.conf_hi := 0.5%float |}.

Definition e3 : Expression.row :=
  {| Expression.id := "e3";
     Expression.name := "gene-3";
     Expression.feature_id := "f1";
     Expression.rna_quantification_id := "rq2";
     Expression.expression := (-1)%float;
     Expression.is_normalized := 1;
     Expression.raw_read_count := 3%float;
     Expression.score := 0.75%float;
     Expression.units := 1;
     Expression.conf_low := (-2)%float;
     Expression.conf_hi := 0%float |}.

Definition rq1 : RnaQuantification.row :=
  {| RnaQuantification.id := "rq1";
     RnaQuantification.name := "rq1";
     RnaQuantification.description := "first quantification";
     RnaQuantification.feature_set_ids := "";
     RnaQuantification.read_group_ids := "";
     RnaQuantification.programs := "p1,p2" |}.

Definition rq2 : RnaQuantification.row :=
  {| RnaQuantification.id := "rq2";
     RnaQuantification.name := "rq2";
     RnaQuantification.description := "second quantification";
     RnaQuantification.feature_set_ids := "fs1,fs2";
     RnaQuantification.read_group_ids := "rg1,rg2";
     RnaQuantification.programs := "" |}.

Definition db : Db :=
  {| RnaQuantification_rows := [rq1];
     Expression_rows := [e1; e2] |}.

Definition dataSource : SqliteRNABackend.t :=
  {| SqliteRNABackend._dbconn := db |}.

Definition db_log : Db :=
  {| RnaQuantification_rows := [rq1; rq2];
     Expression_rows := [e1; e2; e3] |}.

Definition dataSource_log : SqliteRNABackend.t :=
  {| SqliteRNABackend._dbconn := db_log |}.

Definition rnaQuantificationSet : datamodel.Container :=
  {| datamodel.container_getId := [PyStr "dataset"; PyStr "set"] |}.

(** The quantification ["rq1"] of the set, populated from the store. *)
Definition rnaQuantification : RNASeqResult.t :=
  {| RNASeqResult.super :=
       AbstractRNAQuantification.__init__ rnaQuantificationSet "rq1";
     RNASeqResult._dbFilePath := Some "rnaQuant.db";
     RNASeqResult._db := Some dataSource |}.

End Sample.

(** ** Keys and stores used below *)

(** The keys of a record that [ExpressionLevel.__init__] reads, in the
    order in which it first reads them. *)
Definition ExpressionLevel_keys : list string :=
  ["id"; "expression"; "is_normalized"; "raw_read_count"; "score"; "units";
   "name"; "conf_low"; "conf_hi"].

(** The keys of the fields that [addRnaQuantMetadata] reads, in order. *)
Definition RnaQuantMetadata_keys : list string :=
  ["feature_set_ids"; "description"; "name"; "read_group_ids"; "programs"].

(** [sep.join(l)] *)
Definition join (sep : string) (l : list string) : string :=
  String.concat sep l.

Module Fixtures.

(** The quantification ["rq1"], populated from the store that also holds
    quantification ["rq2"]. *)
Definition rnaQuantification_log : RNASeqResult.t :=
  {| RNASeqResult.super :=
       AbstractRNAQuantification.__init__ Sample.rnaQuantificationSet "rq1";
     RNASeqResult._dbFilePath := Some "rnaQuant-log.db";
     RNASeqResult._db := Some Sample.dataSource_log |}.

(** A record of table [Expression] that lacks the [score] column. *)
Definition record_without_score : gmap string pyval :=
  delete "score" (Expression_record Sample.e1).

(** A record of table [RnaQuantification] whose [feature_set_ids] column is
    NULL. *)
Definition fields_null_feature_sets : gmap string pyval :=
  <["feature_set_ids" := PyNone]> (RnaQuantification_record Sample.rq2).

End Fixtures.

(** ** Python values as dictionary keys *)

#[global] Instance spec_float_eq_dec : EqDecision spec_float.
Proof. solve_decision. Defined.

#[global] Instance spec_float_countable : Countable spec_float :=
  inj_countable'
    (fun f : spec_float =>
       match f with
       | S754_zero s => inl (inl (inl s))
       | S754_infinity s => inl (inl (inr s))
       | S754_nan => inl (inr tt)
       | S754_finite s m e => inr (s, m, e)
       end)
    (fun x : bool + bool + unit + bool * positive * Z =>
       match x with
       | inl (inl (inl s)) => S754_zero s
       | inl (inl (inr s)) => S754_infinity s
       | inl (inr tt) => S754_nan
       | inr (s, m, e) => S754_finite s m e
       end)
    (fun f => match f with
              | S754_zero _ | S754_infinity _ | S754_nan
              | S754_finite _ _ _ => eq_refl
              end).

#[global] Instance float_eq_dec : EqDecision float.
Proof.
  intros x y. destruct (PrimFloat.Leibniz.eqb x y) eqn:Heqb.
  - left. by apply Leibniz.eqb_spec.
  - right. intros Heq. apply Leibniz.eqb_spec in Heq. congruence.
Defined.

#[global] Instance float_countable : Countable float :=
  inj_countable' Prim2SF SF2Prim SF2Prim_Prim2SF.

#[global] Instance pyval_eq_dec : EqDecision pyval.
Proof. solve_decision. Defined.

#[global] Instance pyval_countable : Countable pyval :=
  inj_countable'
    (fun v : pyval =>
       match v with
       | PyNone => inl (inl (inl (inl tt)))
       | PyBool b => inl (inl (inl (inr b)))
       | PyInt z => inl (inl (inr z))
       | PyFloat f => inl (inr f)
       | PyStr s => inr s
       end)
    (fun x : unit + bool + Z + float + string =>
       match x with
       | inl (inl (inl (inl tt))) => PyNone
       | inl (inl (inl (inr b))) => PyBool b
       | inl (inl (inr z)) => PyInt z
       | inl (inr f) => PyFloat f
       | inr s => PyStr s
       end)
    (fun v => match v with
              | PyNone | PyBool _ | PyInt _ | PyFloat _ | PyStr _ => eq_refl
              end).

(** ** Lookups in lists and dictionaries of objects *)

(** The outcome of reading a list by index or a dictionary by a compound
    id: the element, or the exception of the failed lookup. *)
Inductive lookup_result (A : Type) : Type :=
| Found (a : A)
| IndexError
| KeyError_id (key : datamodel.CompoundId).
Arguments Found {A} a.
Arguments IndexError {A}.
Arguments KeyError_id {A} key.

(** [l[index]]: a negative index counts from the end of the list. *)
Definition list_getitem {A : Type} (l : list A) (index : Z)
  : lookup_result A :=
  let position :=
    if (0 <=? index)%Z then Some (Z.to_nat index)
    else if (- Z.of_nat (length l) <=? index)%Z
         then Some (Z.to_nat (Z.of_nat (length l) + index))
         else None in
  match position ≫= (fun i => l !! i) with
  | Some a => Found a
  | None => IndexError
  end.

(** [d[key]] for a dictionary keyed by compound ids *)
Definition dict_getitem {A : Type} (d : gmap datamodel.CompoundId A)
  (key : datamodel.CompoundId) : lookup_result A :=
  match d !! key with
  | Some a => Found a
  | None => KeyError_id key
  end.

(** [[d[key] for key in keys]] *)
Fixpoint dict_getitems {A : Type} (d : gmap datamodel.CompoundId A)
  (keys : list datamodel.CompoundId) : lookup_result (list A) :=
  match keys with
  | [] => Found []
  | key :: keys' =>
      match dict_getitem d key with
      | Found a =>
          match dict_getitems d keys' with
          | Found l => Found (a :: l)
          | IndexError => IndexError
          | KeyError_id k => KeyError_id k
          end
      | IndexError => IndexError
      | KeyError_id k => KeyError_id k
      end
  end.

(** [for x in l: body], threading the object that the body updates; an
    exception of the body ends the loop. *)
Fixpoint for_each {A S : Type} (l : list A) (body : S -> A -> result S)
  (s : S) : result S :=
  match l with
  | [] => Return s
  | a :: l' => s' ← body s a; for_each l' body s'
  end.

(** ** class AbstractRNAQuantificationSet *)

Module AbstractRNAQuantificationSet.

Record t : Type := {
  _parentContainer : datamodel.Container;
  _localId : string;
  _name : pyval;
  _referenceSet : pyval
}.

Definition __init__ (parentContainer : datamodel.Container)
  (localId : string) : t :=
  {| _parentContainer := parentContainer;
     _localId := localId;
     _name := PyStr localId;
     _referenceSet := PyNone |}.

Definition getId (self : t) : datamodel.CompoundId :=
  datamodel.getId (_parentContainer self) (PyStr (_localId self)).

End AbstractRNAQuantificationSet.

(** ** class RnaQuantificationSet(AbstractRNAQuantificationSet) *)

Module RnaQuantificationSet.

Record t : Type := {
  super : AbstractRNAQuantificationSet.t;
  _dbFilePath : option string;
  _db : option SqliteRNABackend.t;
  _rnaQuantIdMap : gmap datamodel.CompoundId RNASeqResult.t;
  _rnaQuantIds : list datamodel.CompoundId
}.

Definition __init__ (parentContainer : datamodel.Container) (name : string)
  : t :=
  {| super := AbstractRNAQuantificationSet.__init__ parentContainer name;
     _dbFilePath := None;
     _db := None;
     _rnaQuantIdMap := ∅;
     _rnaQuantIds := [] |}.

(** The set as the parent container of its quantifications and of the
    expression levels it builds. *)
Definition as_container (self : t) : datamodel.Container :=
  {| datamodel.container_getId :=
       AbstractRNAQuantificationSet.getId (super self) |}.

(** Returns the URL providing the data source for this
    RnaQuantificationSet. *)
Definition getDataUrl (self : t) : option string := _dbFilePath self.

(** Returns the number of rna quantifications in this set. *)
Definition getNumRnaQuantifications (self : t) : nat :=
  length (_rnaQuantIds self).

(** Returns the rna quantification at the specified index in this set. *)
Definition getRnaQuantificationByIndex (self : t) (index : Z)
  : lookup_result RNASeqResult.t :=
  match list_getitem (_rnaQuantIds self) index with
  | Found id_ => dict_getitem (_rnaQuantIdMap self) id_
  | IndexError => IndexError
  | KeyError_id k => KeyError_id k
  end.

Definition getRnaQuantification (self : t)
  (rnaQuantificationId : datamodel.CompoundId)
  : lookup_result RNASeqResult.t :=
  dict_getitem (_rnaQuantIdMap self) rnaQuantificationId.

Definition getRnaQuantifications (self : t)
  : lookup_result (list RNASeqResult.t) :=
  dict_getitems (_rnaQuantIdMap self) (_rnaQuantIds self).

Definition getExpressionLevel (self : t) (expression_level_id : string)
  : result AbstractExpressionLevel.t :=
  let expressionId := expression_level_id in
  dataSource ← SqliteRNABackend.enter (_db self);
  expressionReturned ←
    SqliteRNABackend.getExpressionLevelById dataSource expressionId;
  ExpressionLevel.__init__ (as_container self) expressionReturned.

Section Store.

(** The store files: [connect dbFile] is what a connection to the file
    [dbFile] reads, the two tables of a store, or the exception of opening
    it. The store is read-only, so every connection to a file reads the
    same. *)
Variable connect : option string -> result Db.

(** The check that the constructor of a data model object makes of the
    local id it is given. The constructor of [datamodel.DatamodelObject] is
    not part of the module; the theorems assume of it that a string is
    accepted as it is. *)
Variable check_localId : pyval -> result string.

(** [SqliteRNABackend(rnaQuantSqlFile)] the first time the data source is
    entered. *)
Definition open_ (rnaQuantSqlFile : option string)
  : result SqliteRNABackend.t :=
  db ← connect rnaQuantSqlFile;
  Return {| SqliteRNABackend._dbconn := db |}.

(** [RNASeqResult.populateFromFile]: populates the instance variables of
    this quantification from the specified data URL. *)
Definition RNASeqResult_populateFromFile (self : RNASeqResult.t)
  (dataUrl : option string) : result RNASeqResult.t :=
  dataSource ← open_ dataUrl;
  let self :=
    {| RNASeqResult.super := RNASeqResult.super self;
       RNASeqResult._dbFilePath := dataUrl;
       RNASeqResult._db := Some dataSource |} in
  RNASeqResult.getRnaQuantMetadata self.

(** One turn of the loop of [addRnaQuants]. *)
Definition addRnaQuant (self : t) (rnaQuant : gmap string pyval)
  : result t :=
  name ← getitem rnaQuant "name";
  localId ← check_localId name;
  let rnaQuantification := RNASeqResult.__init__ (as_container self) localId in
  rnaQuantification ←
    RNASeqResult_populateFromFile rnaQuantification (_dbFilePath self);
  let id_ :=
    AbstractRNAQuantification.getId (RNASeqResult.super rnaQuantification) in
  Return {| super := super self;
            _dbFilePath := _dbFilePath self;
            _db := _db self;
            _rnaQuantIdMap := <[id_ := rnaQuantification]> (_rnaQuantIdMap self);
            _rnaQuantIds := _rnaQuantIds self ++ [id_] |}.

Definition addRnaQuants (self : t) : result t :=
  dataSource ← SqliteRNABackend.enter (_db self);
  rnaQuantsReturned ←
    SqliteRNABackend.searchRnaQuantificationsInDb dataSource None None None;
  for_each rnaQuantsReturned addRnaQuant self.

(** Populates the instance variables of this RnaQuantificationSet from the
    specified data URL. *)
Definition populateFromFile (self : t) (dataUrl : option string)
  : result t :=
  dataSource ← open_ dataUrl;
  let self :=
    {| super := super self;
       _dbFilePath := dataUrl;
       _db := Some dataSource;
       _rnaQuantIdMap := _rnaQuantIdMap self;
       _rnaQuantIds := _rnaQuantIds self |} in
  addRnaQuants self.

End Store.

End RnaQuantificationSet.

(** What the map of a populated set keeps of each quantification [q] that
    it stores under [id_]: [q] is stored under its own compound id, and it
    reads the store file of the set. *)
Definition stored (dataUrl : option string) (db : Db)
  (id_ : datamodel.CompoundId) (q : RNASeqResult.t) : Prop :=
  AbstractRNAQuantification.getId (RNASeqResult.super q) = id_
  /\ RNASeqResult._dbFilePath q = dataUrl
  /\ RNASeqResult._db q = Some {| SqliteRNABackend._dbconn := db |}.

(** ** Store files used below *)

Module Files.

(** A store in which the second quantification has the id ["rq3"] and the
    name ["third"]. *)
Definition rq3 : RnaQuantification.row :=
  {| RnaQuantification.id := "rq3";
     RnaQuantification.name := "third";
     RnaQuantification.description := "third quantification";
     RnaQuantification.feature_set_ids := "fs1";
     RnaQuantification.read_group_ids := "";
     RnaQuantification.programs := "" |}.

Definition db_renamed : Db :=
  {| RnaQuantification_rows := [Sample.rq1; rq3];
     Expression_rows := [Sample.e1; Sample.e2] |}.

(** Three store files; no other file can be opened. *)
Definition connect (dbFile : option string) : result Db :=
  match dbFile with
  | Some path =>
      if bool_decide (path = "rnaQuant.db") then Return Sample.db
      else if bool_decide (path = "rnaQuant-log.db") then Return Sample.db_log
      else if bool_decide (path = "rnaQuant-renamed.db")
           then Return db_renamed
           else Raise OperationalError
  | None => Raise OperationalError
  end.

(** A constructor check that accepts strings only. *)
Definition check_localId (localId : pyval) : result string :=
  match localId with
  | PyStr s => Return s
  | _ => Raise AttributeError
  end.

End Files.

(** * Properties *)

Import Sqlite sqliteBackend.

(** ** Lists, parameters and the store *)

Lemma comprehension_Return {A B : Type} (f : A -> result B) (g : A -> B) (l : list A) :
  (forall a, f a = Return (g a)) -> comprehension f l = Return (g <$> l).
Proof.
  intros Hf. induction l as [|a l IH]; csimpl; [done|].
  by rewrite Hf, IH.
Qed.

Lemma sqliteRows2dicts_Return (rows : list Row) :
  sqliteRows2dicts rows = Return (record_of <$> rows).
Proof. apply comprehension_Return. done. Qed.

Lemma filter_fmap {A B : Type} (f : A -> B) (p : B -> bool) (l : list A) :
  List.filter p (f <$> l) = f <$> List.filter (fun a => p (f a)) l.
Proof.
  induction l as [|a l IH]; csimpl; [done|].
  destruct (p (f a)); csimpl; by rewrite IH.
Qed.

Lemma apply_limits_fmap {A} (f : A -> Row) pageToken pageSize (l : list A) :
  apply_limits (limitsSql pageToken pageSize) (f <$> l)
  = f <$> Spec.page pageToken pageSize l.
Proof.
  unfold apply_limits, limitsSql, Spec.page; simpl.
  destruct pageSize; by rewrite ?fmap_take, ?fmap_drop.
Qed.

Lemma sql_args_foldl (sql_args : list pyval) (featureIds : list string) :
  foldl (fun sql_args featureId => sql_args ++ [PyStr featureId]) sql_args featureIds
  = sql_args ++ (PyStr <$> featureIds).
Proof.
  revert sql_args. induction featureIds as [|f fs IH]; intros; simpl.
  - by rewrite app_nil_r.
  - rewrite IH. by rewrite <- app_assoc.
Qed.

Lemma existsb_sql_eq_text (x : string) (ids : list string) :
  existsb (sql_eq (SqlText x)) (of_py <$> (PyStr <$> ids)) = bool_decide (x ∈ ids).
Proof.
  induction ids as [|i ids IH].
  - done.
  - cbn [fmap list_fmap existsb of_py sql_eq]. rewrite IH.
    destruct (decide (x = i)) as [->|Hne].
    + rewrite (bool_decide_eq_true_2 (i = i)) by done.
      rewrite (bool_decide_eq_true_2 (i ∈ i :: ids)) by left. done.
    + rewrite (bool_decide_eq_false_2 (x = i)) by done.
      apply bool_decide_ext. rewrite elem_of_cons. tauto.
Qed.


Lemma bind_bind_Return {A B} (a : A) (k : A -> result B) : Return a ≫= k = k a.
Proof. done. Qed.

Lemma execute_Expression db cs lim args bs :
  forallb (fun c => bool_decide (cond_column c ∈ Expression.columns)) cs = true ->
  bind_params cs (of_py <$> args) = Some bs ->
  execute (tables db) {| from := "Expression"; where_ := cs; limits := lim |} args
  = Return (apply_limits lim
      (Expression.to_Row <$>
         List.filter (fun r => forallb (holds (Expression.to_Row r)) bs)
           (Expression_rows db))).
Proof.
  intros Hcols Hbind. unfold execute.
  change (tables db (from _)) with
    (Some {| columns := Expression.columns;
             rows := Expression.to_Row <$> Expression_rows db |}).
  cbn [columns rows where_ limits]. rewrite Hcols, Hbind.
  by rewrite filter_fmap.
Qed.

Lemma execute_RnaQuantification db cs lim args bs :
  forallb (fun c => bool_decide (cond_column c ∈ RnaQuantification.columns)) cs = true ->
  bind_params cs (of_py <$> args) = Some bs ->
  execute (tables db) {| from := "RnaQuantification"; where_ := cs; limits := lim |} args
  = Return (apply_limits lim
      (RnaQuantification.to_Row <$>
         List.filter (fun r => forallb (holds (RnaQuantification.to_Row r)) bs)
           (RnaQuantification_rows db))).
Proof.
  intros Hcols Hbind. unfold execute.
  change (tables db (from _)) with
    (Some {| columns := RnaQuantification.columns;
             rows := RnaQuantification.to_Row <$> RnaQuantification_rows db |}).
  cbn [columns rows where_ limits]. rewrite Hcols, Hbind.
  by rewrite filter_fmap.
Qed.

Lemma filter_ext_bool {A} (p q : A -> bool) (l : list A) :
  (forall a, p a = q a) -> List.filter p l = List.filter q l.
Proof. intros H. induction l as [|a l IH]; simpl; [done|]. by rewrite H, IH. Qed.

Lemma bind_params_CIn (col : string) (vs : list sqlval) :
  bind_params [CIn col (length vs)] vs = Some [BIn col vs].
Proof.
  cbn [bind_params]. rewrite bool_decide_eq_true_2 by done.
  by rewrite firstn_all, drop_all.
Qed.

Lemma bind_params_scoped_in (scope thr col : string) (a b : pyval) (ids : list string) :
  bind_params [CEq scope; CGe thr; CIn col (length ids)]
    (of_py <$> [a; b] ++ (PyStr <$> ids))
  = Some [BEq scope (of_py a); BGe thr (of_py b);
          BIn col (of_py <$> (PyStr <$> ids))].
Proof.
  rewrite fmap_app.
  change (of_py <$> [a; b]) with [of_py a; of_py b].
  cbn [app]. 
  change (bind_params _ _) with
    (cons (BEq scope (of_py a)) <$> (cons (BGe thr (of_py b)) <$>
       bind_params [CIn col (length ids)] (of_py <$> (PyStr <$> ids)))).
  rewrite <- (length_fmap PyStr ids), <- (length_fmap of_py (PyStr <$> ids)).
  by rewrite bind_params_CIn.
Qed.

Lemma search_Expression self rnaQuantId featureIds pageToken pageSize threshold :
  SqliteRNABackend.searchExpressionLevelsInDb self rnaQuantId featureIds pageToken pageSize threshold
  = Return (Expression_record <$>
      Spec.ScopedList (Expression_rows (SqliteRNABackend._dbconn self)) rnaQuantId
        (Some (default 0%float threshold)) (id_filter featureIds)
        (default 0 pageToken) pageSize).
Proof.
  unfold SqliteRNABackend.searchExpressionLevelsInDb, Spec.ScopedList.
  set (th := default 0%float threshold). set (tok := default 0 pageToken).
  assert (Hnil :
    execute (tables (SqliteRNABackend._dbconn self))
      (add_limits {| from := "Expression";
                     where_ := [CEq "rna_quantification_id"; CGe "expression"];
                     limits := None |} (limitsSql tok pageSize))
      [PyStr rnaQuantId; PyFloat th] ≫= (fun query => sqliteRows2dicts (fetchall query))
    = Return (Expression_record <$>
        Spec.page tok pageSize
          (List.filter (Spec.scoped rnaQuantId (Some th) None)
             (Expression_rows (SqliteRNABackend._dbconn self))))).
  { unfold add_limits, limitsSql. cbn [from where_ limits].
    erewrite execute_Expression; [|done|done].
    rewrite bind_bind_Return. unfold fetchall.
    rewrite sqliteRows2dicts_Return.
    change (Some _) with (limitsSql tok pageSize) at 1.
    rewrite apply_limits_fmap, <- list_fmap_compose.
    do 3 f_equal. apply filter_ext_bool. intros r.
    unfold Spec.scoped. cbn. by rewrite !andb_true_r. }
  destruct featureIds as [[|f fs]|]; cbn [default id_filter]; try exact Hnil.
  rewrite bool_decide_eq_true_2 by (simpl; lia).
  rewrite sql_args_foldl.
  unfold add_limits, add_cond, limitsSql. cbn [from where_ limits app].
  erewrite execute_Expression; [|done|].
  2:{ apply bind_params_scoped_in. }
  rewrite bind_bind_Return. unfold fetchall.
  rewrite sqliteRows2dicts_Return.
  change (Some _) with (limitsSql tok pageSize) at 1.
  rewrite apply_limits_fmap, <- list_fmap_compose.
  do 3 f_equal. apply filter_ext_bool. intros r.
  unfold Spec.scoped.
  cbn [forallb holds]. 
  change (column "rna_quantification_id" (Expression.to_Row r)) with (Some (SqlText (Expression.rna_quantification_id r))).
  change (column "expression" (Expression.to_Row r)) with (Some (SqlReal (Expression.expression r))).
  change (column "feature_id" (Expression.to_Row r)) with (Some (SqlText (Expression.feature_id r))).
  cbn [sql_eq sql_ge].
  rewrite (existsb_sql_eq_text _ (f :: fs)). by rewrite andb_true_r, andb_assoc.
Qed.

Lemma search_RnaQuantifications self pageToken pageSize rnaQuantificationId :
  SqliteRNABackend.searchRnaQuantificationsInDb self pageToken pageSize
    rnaQuantificationId
  = Return (RnaQuantification_record <$>
      Spec.page (default 0 pageToken) pageSize
        (List.filter (quantification_selected rnaQuantificationId)
           (RnaQuantification_rows (SqliteRNABackend._dbconn self)))).
Proof.
  unfold SqliteRNABackend.searchRnaQuantificationsInDb.
  set (tok := default 0 pageToken).
  assert (Hall :
    execute (tables (SqliteRNABackend._dbconn self))
      (add_limits {| from := "RnaQuantification"; where_ := [];
                     limits := None |} (limitsSql tok pageSize)) []
    ≫= (fun query =>
          except_AttributeError (sqliteRows2dicts (fetchall query))
            (Raise (RnaQuantificationNotFoundException "")))
    = Return (RnaQuantification_record <$>
        Spec.page tok pageSize
          (List.filter (fun _ => true)
             (RnaQuantification_rows (SqliteRNABackend._dbconn self))))).
  { unfold add_limits, limitsSql. cbn [from where_ limits].
    erewrite execute_RnaQuantification; [|done|done].
    rewrite bind_bind_Return. unfold fetchall.
    rewrite sqliteRows2dicts_Return. cbn [except_AttributeError].
    change (Some _) with (limitsSql tok pageSize) at 1.
    by rewrite apply_limits_fmap, <- list_fmap_compose. }
  destruct rnaQuantificationId as [[|c s]|]; cbn [default quantification_selected];
    try exact Hall.
  rewrite bool_decide_eq_true_2 by (simpl; lia).
  unfold add_limits, add_cond, limitsSql. cbn [from where_ limits app].
  erewrite execute_RnaQuantification; [|done|done].
  rewrite bind_bind_Return. unfold fetchall.
  rewrite sqliteRows2dicts_Return. cbn [except_AttributeError].
  change (Some _) with (limitsSql tok pageSize) at 1.
  rewrite apply_limits_fmap, <- list_fmap_compose.
  do 3 f_equal. apply filter_ext_bool. intros r.
  cbn [forallb holds].
  change (column "id" (RnaQuantification.to_Row r))
    with (Some (SqlText (RnaQuantification.id r))).
  cbn [of_py sql_eq]. by rewrite andb_true_r.
Qed.

Lemma filter_none {A} (p : A -> bool) (l : list A) :
  (forall a, a ∈ l -> p a = false) -> List.filter p l = [].
Proof.
  induction l as [|a l IH]; intros H; simpl; [done|].
  rewrite (H a) by left. apply IH. intros b Hb. apply H. by right.
Qed.

Lemma getRnaQuantificationById_eq self rnaQuantificationId :
  SqliteRNABackend.getRnaQuantificationById self rnaQuantificationId
  = match List.filter
            (fun r => bool_decide (RnaQuantification.id r = rnaQuantificationId))
            (RnaQuantification_rows (SqliteRNABackend._dbconn self)) with
    | [] => Raise (RnaQuantificationNotFoundException rnaQuantificationId)
    | r :: _ => Return (RnaQuantification_record r)
    end.
Proof.
  unfold SqliteRNABackend.getRnaQuantificationById.
  erewrite execute_RnaQuantification; [|done|done].
  rewrite bind_bind_Return. cbn [apply_limits].
  erewrite filter_ext_bool.
  2:{ intros r. cbn [forallb holds].
      change (column "id" (RnaQuantification.to_Row r))
        with (Some (SqlText (RnaQuantification.id r))).
      cbn [of_py sql_eq]. apply andb_true_r. }
  by destruct (List.filter _ _).
Qed.

(** ** Hydration *)

Lemma ExpressionLevel_init_row parentContainer (r : Expression.row) :
  ExpressionLevel.__init__ parentContainer (Expression_record r)
  = Return
      {| AbstractExpressionLevel._parentContainer := parentContainer;
         AbstractExpressionLevel._localId := PyStr (Expression.id r);
         AbstractExpressionLevel._expression :=
           PyFloat (Expression.expression r);
         AbstractExpressionLevel._featureId := PyStr (Expression.id r);
         AbstractExpressionLevel._isNormalized :=
           PyBool (negb (Expression.is_normalized r =? 0)%Z);
         AbstractExpressionLevel._rawReadCount :=
           PyFloat (Expression.raw_read_count r);
         AbstractExpressionLevel._score := PyFloat (Expression.score r);
         AbstractExpressionLevel._units := PyInt (Expression.units r);
         AbstractExpressionLevel._name := PyStr (Expression.name r);
         AbstractExpressionLevel._confIntervalLow :=
           PyFloat (Expression.conf_low r);
         AbstractExpressionLevel._confIntervalHigh :=
           PyFloat (Expression.conf_hi r) |}.
Proof. reflexivity. Qed.

Lemma addRnaQuantMetadata_row self (r : RnaQuantification.row) :
  AbstractRNAQuantification.addRnaQuantMetadata self
    (RnaQuantification_record r)
  = Return
      {| AbstractRNAQuantification._parentContainer :=
           AbstractRNAQuantification._parentContainer self;
         AbstractRNAQuantification._localId :=
           AbstractRNAQuantification._localId self;
         AbstractRNAQuantification._featureSetIds :=
           str_split (RnaQuantification.feature_set_ids r) ",";
         AbstractRNAQuantification._description :=
           PyStr (RnaQuantification.description r);
         AbstractRNAQuantification._name := PyStr (RnaQuantification.name r);
         AbstractRNAQuantification._readGroupIds :=
           if bool_decide (RnaQuantification.read_group_ids r = "")
           then []
           else str_split (RnaQuantification.read_group_ids r) ",";
         AbstractRNAQuantification._referenceSet :=
           AbstractRNAQuantification._referenceSet self;
         AbstractRNAQuantification._programs := [] |}.
Proof.
  unfold AbstractRNAQuantification.addRnaQuantMetadata.
  change (getitem (RnaQuantification_record r) "feature_set_ids")
    with (Return (PyStr (RnaQuantification.feature_set_ids r))).
  change (getitem (RnaQuantification_record r) "description")
    with (Return (PyStr (RnaQuantification.description r))).
  change (getitem (RnaQuantification_record r) "name")
    with (Return (PyStr (RnaQuantification.name r))).
  change (getitem (RnaQuantification_record r) "read_group_ids")
    with (Return (PyStr (RnaQuantification.read_group_ids r))).
  change (getitem (RnaQuantification_record r) "programs")
    with (Return (PyStr (RnaQuantification.programs r))).
  repeat first [rewrite bind_bind_Return | progress cbn [split eq_str]].
  destruct (bool_decide (RnaQuantification.read_group_ids r = ""));
    repeat first [rewrite bind_bind_Return | progress cbn [split eq_str]];
    by destruct (bool_decide (RnaQuantification.programs r = "")).
Qed.

(** ** Comparison of floats *)

Lemma SFcompare_antisym (x y : spec_float) :
  SFcompare y x = option_map CompOpp (SFcompare x y).
Proof.
  destruct x as [sx|sx| |sx mx ex], y as [sy|sy| |sy my ey]; simpl;
    try done; try (by destruct sx); try (by destruct sy);
    try (by destruct sx, sy).
  destruct sx, sy; simpl; try done; f_equal.
  - rewrite (Z.compare_antisym ex ey).
    destruct (ex ?= ey)%Z; simpl; try done.
    f_equal. change Eq with (CompOpp Eq) at 1.
    symmetry. apply Pos.compare_cont_antisym.
  - rewrite (Z.compare_antisym ex ey).
    destruct (ex ?= ey)%Z; simpl; try done.
    change Eq with (CompOpp Eq) at 1.
    symmetry. apply Pos.compare_cont_antisym.
Qed.

Lemma leb_not_ltb (t e : float) :
  (t <=? e)%float = true -> (e <? t)%float = false.
Proof.
  rewrite leb_spec, ltb_spec. unfold SFleb, SFltb.
  rewrite (SFcompare_antisym (Prim2SF t) (Prim2SF e)).
  by destruct (SFcompare (Prim2SF t) (Prim2SF e)) as [[]|].
Qed.

(** ** The claims about hydration *)

(** For every row of table [Expression], the hydrated expression level has
    as feature id the row's [id] column, and the transfer object shows
    that value. *)
Lemma ExpressionLevel_featureId_of_row parentContainer (r : Expression.row) :
  exists level,
    ExpressionLevel.__init__ parentContainer (Expression_record r)
    = Return level
    /\ AbstractExpressionLevel._featureId level = PyStr (Expression.id r)
    /\ protocol.ExpressionLevel.feature_id
         (AbstractExpressionLevel.toProtocolElement level)
       = PyStr (Expression.id r).
Proof. eexists. rewrite ExpressionLevel_init_row. done. Qed.

(** C1. The row of the store with [id] "e1" and [feature_id] "f1"
    hydrates to an expression level whose feature id is "e1": the feature
    id is read from the [id] column, and the transfer object carries "e1"
    in its [feature_id] field, not the "f1" of the row's [feature_id]
    column. *)
Theorem C1_feature_id_taken_from_id_column :
  Expression.feature_id Sample.e1 = "f1"
  /\ exists level,
       ExpressionLevel.__init__ (RNASeqResult.as_container Sample.rnaQuantification)
         (Expression_record Sample.e1)
       = Return level
       /\ AbstractExpressionLevel._featureId level = PyStr "e1"
       /\ protocol.ExpressionLevel.feature_id
            (AbstractExpressionLevel.toProtocolElement level)
          = PyStr "e1".
Proof.
  split; [reflexivity|].
  destruct (ExpressionLevel_featureId_of_row
              (RNASeqResult.as_container Sample.rnaQuantification) Sample.e1)
    as (level & Hinit & Hfeature & Hproto).
  by exists level.
Qed.

(** The end-to-end scenario of the specification, on the code: the list
    query with threshold 1.0 returns one expression level, the one of
    feature "f1", and its feature id reads "e1". *)
Example listExpressionLevels_end_to_end :
  exists level,
    RNASeqResult.getExpressionLevels Sample.rnaQuantification "rq1"
      (Some 0) (Some 10) (Some 1%float) (Some [])
    = Return [level]
    /\ AbstractExpressionLevel._featureId level = PyStr "e1"
    /\ AbstractExpressionLevel._expression level = PyFloat 2.
Proof. eexists. split; [vm_compute; reflexivity|]. done. Qed.

(** C7. Hydration turns the stored integer of column [is_normalized] into
    a boolean: 1 becomes [True] and 0 becomes [False], in the expression
    level and in its transfer object. *)
Theorem C7_is_normalized_coerced_to_bool parentContainer
  (r : Expression.row) (b : bool) :
  Expression.is_normalized r = (if b then 1 else 0)%Z ->
  exists level,
    ExpressionLevel.__init__ parentContainer (Expression_record r)
    = Return level
    /\ AbstractExpressionLevel._isNormalized level = PyBool b
    /\ protocol.ExpressionLevel.is_normalized
         (AbstractExpressionLevel.toProtocolElement level)
       = PyBool b.
Proof.
  intros Hcol. eexists. rewrite ExpressionLevel_init_row.
  split; [reflexivity|]. cbn. rewrite Hcol. by destruct b.
Qed.

Lemma C7_is_normalized_coerced_to_bool_witness :
  exists level,
    ExpressionLevel.__init__ Sample.rnaQuantificationSet
      (Expression_record Sample.e2)
    = Return level
    /\ AbstractExpressionLevel._isNormalized level = PyBool false
    /\ protocol.ExpressionLevel.is_normalized
         (AbstractExpressionLevel.toProtocolElement level)
       = PyBool false.
Proof.
  apply (C7_is_normalized_coerced_to_bool Sample.rnaQuantificationSet
           Sample.e2 false).
  reflexivity.
Defined.

(** C8. For every row of table [RnaQuantification], [addRnaQuantMetadata]
    leaves the quantification with an empty sequence of program
    references, whatever the row's [programs] column holds; so does the
    transfer object. *)
Theorem C8_programs_always_empty (self : AbstractRNAQuantification.t)
  (r : RnaQuantification.row) :
  exists self',
    AbstractRNAQuantification.addRnaQuantMetadata self
      (RnaQuantification_record r)
    = Return self'
    /\ AbstractRNAQuantification._programs self' = []
    /\ protocol.RnaQuantification.programs
         (AbstractRNAQuantification.toProtocolElement self') = [].
Proof. eexists. rewrite addRnaQuantMetadata_row. done. Qed.

(** C9. A row whose [feature_set_ids] column is the empty string hydrates
    to the one-element list of the empty string, not to the empty list; an
    empty [read_group_ids] column hydrates to the empty list, and so does
    an empty [programs] column. *)
Theorem C9_empty_feature_set_ids_not_none (self : AbstractRNAQuantification.t)
  (r : RnaQuantification.row) :
  exists self',
    AbstractRNAQuantification.addRnaQuantMetadata self
      (RnaQuantification_record r)
    = Return self'
    /\ (RnaQuantification.feature_set_ids r = "" ->
        AbstractRNAQuantification._featureSetIds self' = [""]
        /\ AbstractRNAQuantification._featureSetIds self' <> [])
    /\ (RnaQuantification.read_group_ids r = "" ->
        AbstractRNAQuantification._readGroupIds self' = [])
    /\ (RnaQuantification.programs r = "" ->
        AbstractRNAQuantification._programs self' = []).
Proof.
  eexists. rewrite addRnaQuantMetadata_row. split; [reflexivity|].
  cbn [AbstractRNAQuantification._featureSetIds
       AbstractRNAQuantification._readGroupIds
       AbstractRNAQuantification._programs].
  split; [|split]; [intros -> | intros -> | done].
  - by split.
  - done.
Qed.

Lemma C9_empty_feature_set_ids_not_none_witness :
  exists self',
    AbstractRNAQuantification.addRnaQuantMetadata
      (RNASeqResult.super Sample.rnaQuantification)
      (RnaQuantification_record Sample.rq1)
    = Return self'
    /\ AbstractRNAQuantification._featureSetIds self' = [""]
    /\ AbstractRNAQuantification._readGroupIds self' = [].
Proof.
  destruct (C9_empty_feature_set_ids_not_none
              (RNASeqResult.super Sample.rnaQuantification) Sample.rq1)
    as (self' & Hadd & Hfeature & Hgroups & _).
  exists self'. split; [exact Hadd|]. split.
  - apply Hfeature. reflexivity.
  - apply Hgroups. reflexivity.
Defined.

(** ** The claims about the query layer *)

Lemma page_Forall {A} (P : A -> Prop) pageToken pageSize (l : list A) :
  Forall P l -> Forall P (Spec.page pageToken pageSize l).
Proof.
  intros H. unfold Spec.page.
  destruct pageSize; auto using Forall_take, Forall_drop.
Qed.

Lemma filter_Forall {A} (p : A -> bool) (l : list A) :
  Forall (fun a => p a = true) (List.filter p l).
Proof.
  induction l as [|a l IH]; simpl; [constructor|].
  destruct (p a) eqn:Hp; [by constructor|done].
Qed.

Lemma ScopedList_Forall table scopeValue thresholdValue idFilterSet
  pageToken pageSize :
  Forall (fun r => Spec.scoped scopeValue thresholdValue idFilterSet r = true)
    (Spec.ScopedList table scopeValue thresholdValue idFilterSet
       pageToken pageSize).
Proof. apply page_Forall, filter_Forall. Qed.

Lemma page_nil {A} pageToken pageSize : Spec.page pageToken pageSize (@nil A) = [].
Proof. unfold Spec.page. destruct pageSize; by rewrite drop_nil, ?take_nil. Qed.

Lemma page_lookup {A} pageToken pageSize (l : list A) (i : nat) :
  Spec.page pageToken pageSize l !! i
  = match pageSize with
    | Some k => if decide (i < k) then l !! (pageToken + i) else None
    | None => l !! (pageToken + i)
    end.
Proof.
  unfold Spec.page. destruct pageSize as [k|].
  - rewrite lookup_take. case_decide; [apply lookup_drop|done].
  - apply lookup_drop.
Qed.

Lemma page_out_of_range {A} pageToken pageSize (l : list A) :
  length l <= pageToken -> Spec.page pageToken pageSize l = [].
Proof.
  intros H. unfold Spec.page. rewrite drop_ge by done.
  destruct pageSize; by rewrite ?take_nil.
Qed.

Lemma ScopedList_no_scope table scopeValue thresholdValue idFilterSet
  pageToken pageSize :
  (forall r, r ∈ table -> Expression.rna_quantification_id r <> scopeValue) ->
  Spec.ScopedList table scopeValue thresholdValue idFilterSet
    pageToken pageSize = [].
Proof.
  intros H. unfold Spec.ScopedList. rewrite filter_none; [apply page_nil|].
  intros r Hr. unfold Spec.scoped.
  by rewrite (bool_decide_eq_false_2 _ (H r Hr)).
Qed.

Lemma comprehension_Forall {A B} (f : A -> result B) (P : A -> Prop)
  (Q : B -> Prop) (l : list A) :
  (forall a, P a -> exists b, f a = Return b /\ Q b) ->
  Forall P l ->
  exists bs, comprehension f l = Return bs /\ Forall Q bs.
Proof.
  intros Hf. induction 1 as [|a l Ha Hl (bs & Hbs & HQ)]; simpl.
  - by exists [].
  - destruct (Hf a Ha) as (b & Hb & Hq). exists (b :: bs).
    rewrite Hb, Hbs. split; [done|by constructor].
Qed.

Lemma getExpressionLevels_unfold quantification dataSource rnaQuantID
  pageToken pageSize threshold featureIds :
  RNASeqResult._db quantification = Some dataSource ->
  RNASeqResult.getExpressionLevels quantification rnaQuantID pageToken
    pageSize threshold featureIds
  = comprehension
      (fun expressionEntry =>
         ExpressionLevel.__init__ (RNASeqResult.as_container quantification)
           expressionEntry)
      (Expression_record <$>
         Spec.ScopedList
           (Expression_rows (SqliteRNABackend._dbconn dataSource)) rnaQuantID
           (Some (default 0%float threshold)) (id_filter featureIds)
           (default 0 pageToken) pageSize).
Proof.
  intros Hdb. unfold RNASeqResult.getExpressionLevels. rewrite Hdb.
  cbn [SqliteRNABackend.enter]. rewrite bind_bind_Return.
  rewrite search_Expression, bind_bind_Return.
  by destruct featureIds as [[|f fs]|].
Qed.

(** C2. With an empty set of feature ids (or none given),
    [searchExpressionLevelsInDb] returns the rows of the query that has no
    feature-id restriction at all; with a non-empty set, every row it
    returns has its [feature_id] column in the set. *)
Theorem C2_feature_id_filter self rnaQuantId pageToken pageSize threshold :
  let unrestricted :=
    Return (Expression_record <$>
      Spec.ScopedList (Expression_rows (SqliteRNABackend._dbconn self))
        rnaQuantId (Some (default 0%float threshold)) None
        (default 0 pageToken) pageSize) in
  SqliteRNABackend.searchExpressionLevelsInDb self rnaQuantId (Some [])
    pageToken pageSize threshold = unrestricted
  /\ SqliteRNABackend.searchExpressionLevelsInDb self rnaQuantId None
       pageToken pageSize threshold = unrestricted
  /\ forall featureIds, featureIds <> [] ->
       exists returned,
         SqliteRNABackend.searchExpressionLevelsInDb self rnaQuantId
           (Some featureIds) pageToken pageSize threshold
         = Return returned
         /\ Forall (fun record =>
                      exists featureId,
                        getitem record "feature_id" = Return (PyStr featureId)
                        /\ featureId ∈ featureIds)
              returned.
Proof.
  cbn zeta. split; [apply search_Expression|].
  split; [apply search_Expression|].
  intros featureIds Hne. eexists. split; [apply search_Expression|].
  destruct featureIds as [|f fs]; [done|]. cbn [id_filter].
  apply Forall_fmap.
  eapply Forall_impl; [apply ScopedList_Forall|].
  intros r Hr. exists (Expression.feature_id r). split; [reflexivity|].
  unfold Spec.scoped in Hr.
  apply andb_prop in Hr as [_ Hin]. by apply bool_decide_eq_true in Hin.
Qed.

Lemma C2_feature_id_filter_witness :
  exists returned,
    SqliteRNABackend.searchExpressionLevelsInDb Sample.dataSource "rq1"
      (Some ["f2"; "f9"]) (Some 0) (Some 10) (Some 0%float)
    = Return returned
    /\ Forall (fun record =>
                 exists featureId,
                   getitem record "feature_id" = Return (PyStr featureId)
                   /\ featureId ∈ ["f2"; "f9"])
         returned.
Proof.
  apply (C2_feature_id_filter Sample.dataSource "rq1" (Some 0) (Some 10)
           (Some 0%float)).
  discriminate.
Defined.

(** C3. A list query with [pageToken = t] returns the matching rows from
    position [t] on, in store order: with [pageSize = k] those at the
    positions from [t] up to, not including, [t + k], and with [pageSize]
    unset all of them; a [pageToken] at or beyond the number of matching
    rows gives the empty result, no error. This holds of both list
    queries, over [Expression] and over [RnaQuantification]. *)
Theorem C3_pagination self (t : nat) (pageSize : option nat) :
  (forall rnaQuantId featureIds threshold,
     let matching :=
       List.filter
         (Spec.scoped rnaQuantId (Some (default 0%float threshold))
            (id_filter featureIds))
         (Expression_rows (SqliteRNABackend._dbconn self)) in
     exists returned,
       SqliteRNABackend.searchExpressionLevelsInDb self rnaQuantId featureIds
         (Some t) pageSize threshold
       = Return returned
       /\ (forall i,
             returned !! i
             = match pageSize with
               | Some k =>
                   if decide (i < k)
                   then Expression_record <$> matching !! (t + i)
                   else None
               | None => Expression_record <$> matching !! (t + i)
               end)
       /\ (length matching <= t -> returned = []))
  /\ (forall rnaQuantificationId,
        let matching :=
          List.filter (quantification_selected rnaQuantificationId)
            (RnaQuantification_rows (SqliteRNABackend._dbconn self)) in
        exists returned,
          SqliteRNABackend.searchRnaQuantificationsInDb self (Some t) pageSize
            rnaQuantificationId
          = Return returned
          /\ (forall i,
                returned !! i
                = match pageSize with
                  | Some k =>
                      if decide (i < k)
                      then RnaQuantification_record <$> matching !! (t + i)
                      else None
                  | None => RnaQuantification_record <$> matching !! (t + i)
                  end)
          /\ (length matching <= t -> returned = [])).
Proof.
  split.
  - intros rnaQuantId featureIds threshold matching. eexists.
    split; [apply search_Expression|]. unfold Spec.ScopedList.
    cbn [default]. fold matching. split.
    + intros i. rewrite list_lookup_fmap, page_lookup.
      destruct pageSize as [k|]; [case_decide|]; done.
    + intros Hlen. by rewrite page_out_of_range.
  - intros rnaQuantificationId matching. eexists.
    split; [apply search_RnaQuantifications|].
    cbn [default]. fold matching. split.
    + intros i. rewrite list_lookup_fmap, page_lookup.
      destruct pageSize as [k|]; [case_decide|]; done.
    + intros Hlen. by rewrite page_out_of_range.
Qed.

Lemma C3_pagination_witness :
  exists returned,
    SqliteRNABackend.searchExpressionLevelsInDb Sample.dataSource "rq1"
      (Some []) (Some 2) (Some 5) (Some 0%float)
    = Return returned
    /\ returned = [].
Proof.
  destruct (C3_pagination Sample.dataSource 2 (Some 5)) as [Hexpression _].
  destruct (Hexpression "rq1" (Some []) (Some 0%float))
    as (returned & Hreturned & _ & Hrange).
  exists returned. split; [exact Hreturned|].
  apply Hrange. vm_compute. lia.
Defined.

(** C4. For every threshold [t] that the caller supplies, every expression
    level that [getExpressionLevels] returns has an expression value [e]
    with [t <= e]; none has [e < t]. *)
Theorem C4_threshold_respected quantification dataSource rnaQuantID
  pageToken pageSize (t : float) featureIds :
  RNASeqResult._db quantification = Some dataSource ->
  exists levels,
    RNASeqResult.getExpressionLevels quantification rnaQuantID pageToken
      pageSize (Some t) featureIds
    = Return levels
    /\ Forall (fun level =>
                 exists e,
                   AbstractExpressionLevel._expression level = PyFloat e
                   /\ (t <=? e)%float = true
                   /\ (e <? t)%float = false)
         levels.
Proof.
  intros Hdb. rewrite (getExpressionLevels_unfold _ _ _ _ _ _ _ Hdb).
  cbn [default].
  eapply (comprehension_Forall _
            (fun record =>
               exists r, record = Expression_record r
                         /\ (t <=? Expression.expression r)%float = true)).
  - intros record (r & -> & Hge). eexists.
    split; [apply ExpressionLevel_init_row|].
    exists (Expression.expression r).
    split; [reflexivity|]. split; [exact Hge|by apply leb_not_ltb].
  - apply Forall_fmap.
    eapply Forall_impl; [apply ScopedList_Forall|].
    intros r Hr. exists r. split; [reflexivity|].
    unfold Spec.scoped in Hr.
    apply andb_prop in Hr as [Hr _]. by apply andb_prop in Hr as [_ Hr].
Qed.

Lemma C4_threshold_respected_witness :
  exists levels,
    RNASeqResult.getExpressionLevels Sample.rnaQuantification "rq1"
      (Some 0) (Some 10) (Some 0.5%float) (Some [])
    = Return levels
    /\ Forall (fun level =>
                 exists e,
                   AbstractExpressionLevel._expression level = PyFloat e
                   /\ (0.5 <=? e)%float = true
                   /\ (e <? 0.5)%float = false)
         levels.
Proof.
  apply (C4_threshold_respected Sample.rnaQuantification Sample.dataSource
           "rq1" (Some 0) (Some 10) 0.5%float (Some [])).
  reflexivity.
Defined.

(** C5, as the code has it. [searchExpressionLevelsInDb] never leaves the
    threshold clause out. With the threshold left unset it returns, for
    every table, the rows of the same query with threshold 0.0: the rows
    in scope whose expression value [e] has [0.0 <= e], cut to the page.
    These are the rows of the query without the threshold clause whenever
    every stored expression value [e] of the table has [0.0 <= e], so that
    none is below 0.0 and none is a NaN. *)
Theorem C5_unset_threshold_filters_at_zero self rnaQuantId featureIds
  pageToken pageSize :
  SqliteRNABackend.searchExpressionLevelsInDb self rnaQuantId featureIds
    pageToken pageSize None
  = SqliteRNABackend.searchExpressionLevelsInDb self rnaQuantId featureIds
      pageToken pageSize (Some 0%float)
  /\ SqliteRNABackend.searchExpressionLevelsInDb self rnaQuantId featureIds
       pageToken pageSize None
     = Return (Expression_record <$>
         Spec.ScopedList (Expression_rows (SqliteRNABackend._dbconn self))
           rnaQuantId (Some 0%float) (id_filter featureIds)
           (default 0 pageToken) pageSize)
  /\ (Forall (fun r => (0 <=? Expression.expression r)%float = true)
        (Expression_rows (SqliteRNABackend._dbconn self)) ->
      SqliteRNABackend.searchExpressionLevelsInDb self rnaQuantId featureIds
        pageToken pageSize None
      = Return (Expression_record <$>
          Spec.ScopedList (Expression_rows (SqliteRNABackend._dbconn self))
            rnaQuantId None (id_filter featureIds) (default 0 pageToken)
            pageSize)).
Proof.
  rewrite !search_Expression. split; [reflexivity|]. split; [reflexivity|].
  intros Hnonneg. cbn [default]. unfold Spec.ScopedList. do 3 f_equal.
  induction Hnonneg as [|r rows Hr Hrows IH]; [done|].
  cbn [List.filter]. rewrite IH.
  replace (Spec.scoped rnaQuantId (Some 0%float) (id_filter featureIds) r)
    with (Spec.scoped rnaQuantId None (id_filter featureIds) r); [done|].
  unfold Spec.scoped. by rewrite Hr.
Qed.

Lemma C5_unset_threshold_filters_at_zero_witness :
  SqliteRNABackend.searchExpressionLevelsInDb Sample.dataSource "rq1" None
    None None None
  = Return (Expression_record <$>
      Spec.ScopedList (Expression_rows Sample.db) "rq1" None None 0 None).
Proof.
  destruct (C5_unset_threshold_filters_at_zero Sample.dataSource "rq1" None
              None None)
    as (_ & _ & Hnonneg).
  apply Hnonneg. repeat constructor.
Defined.

(** C5, as the claim states it, fails: the store with a row of expression
    value -1.0 under "rq2" returns that row when the threshold clause is
    left out, and nothing when [searchExpressionLevelsInDb] is called with
    the threshold unset. *)
Lemma C5_unset_threshold_is_not_no_threshold :
  SqliteRNABackend.searchExpressionLevelsInDb Sample.dataSource_log "rq2"
    None None None None
  = Return []
  /\ Spec.ScopedList (Expression_rows Sample.db_log) "rq2" None None 0 None
     = [Sample.e3]
  /\ SqliteRNABackend.searchExpressionLevelsInDb Sample.dataSource_log "rq2"
       None None None None
     <> Return (Expression_record <$>
          Spec.ScopedList (Expression_rows Sample.db_log) "rq2" None None 0
            None).
Proof.
  assert (Hcode :
    SqliteRNABackend.searchExpressionLevelsInDb Sample.dataSource_log "rq2"
      None None None None = Return []) by (vm_compute; reflexivity).
  assert (Hspec :
    Spec.ScopedList (Expression_rows Sample.db_log) "rq2" None None 0 None
    = [Sample.e3]) by (vm_compute; reflexivity).
  split; [exact Hcode|]. split; [exact Hspec|].
  rewrite Hcode, Hspec. discriminate.
Qed.

(** C6. For every id that no row of table [RnaQuantification] has, the
    point lookup [getRnaQuantificationById] raises
    [RnaQuantificationNotFoundException] with that id; it returns
    nothing. *)
Theorem C6_point_lookup_not_found self (rnaQuantificationId : string) :
  (forall r, r ∈ RnaQuantification_rows (SqliteRNABackend._dbconn self) ->
             RnaQuantification.id r <> rnaQuantificationId) ->
  SqliteRNABackend.getRnaQuantificationById self rnaQuantificationId
  = Raise (RnaQuantificationNotFoundException rnaQuantificationId).
Proof.
  intros Habsent. rewrite getRnaQuantificationById_eq.
  rewrite filter_none; [done|].
  intros r Hr. by apply bool_decide_eq_false_2, Habsent.
Qed.

Lemma C6_point_lookup_not_found_witness :
  SqliteRNABackend.getRnaQuantificationById Sample.dataSource "rq7"
  = Raise (RnaQuantificationNotFoundException "rq7").
Proof.
  apply (C6_point_lookup_not_found Sample.dataSource "rq7").
  intros r Hr. apply list_elem_of_singleton in Hr. rewrite Hr. discriminate.
Defined.

(** C10. For every quantification id that no row of table [Expression]
    has, [searchExpressionLevelsInDb] returns the empty sequence, and so
    does [getExpressionLevels] of a populated quantification: neither
    raises. *)
Theorem C10_list_of_unknown_scope_is_empty self (rnaQuantId : string)
  featureIds pageToken pageSize threshold :
  (forall r, r ∈ Expression_rows (SqliteRNABackend._dbconn self) ->
             Expression.rna_quantification_id r <> rnaQuantId) ->
  SqliteRNABackend.searchExpressionLevelsInDb self rnaQuantId featureIds
    pageToken pageSize threshold
  = Return []
  /\ forall quantification,
       RNASeqResult._db quantification = Some self ->
       RNASeqResult.getExpressionLevels quantification rnaQuantId pageToken
         pageSize threshold featureIds
       = Return [].
Proof.
  intros Habsent. split.
  - rewrite search_Expression. by rewrite ScopedList_no_scope.
  - intros quantification Hdb.
    rewrite (getExpressionLevels_unfold _ _ _ _ _ _ _ Hdb).
    by rewrite ScopedList_no_scope.
Qed.

Lemma C10_list_of_unknown_scope_is_empty_witness :
  SqliteRNABackend.searchExpressionLevelsInDb Sample.dataSource "rq7"
    (Some ["f1"]) (Some 0) (Some 10) (Some 0%float)
  = Return []
  /\ RNASeqResult.getExpressionLevels Sample.rnaQuantification "rq7"
       (Some 0) (Some 10) (Some 0%float) (Some ["f1"])
     = Return [].
Proof.
  destruct (C10_list_of_unknown_scope_is_empty Sample.dataSource "rq7"
              (Some ["f1"]) (Some 0) (Some 10) (Some 0%float))
    as [Hsearch Hlevels].
  - intros r Hr. apply elem_of_cons in Hr as [->|Hr]; [discriminate|].
    apply list_elem_of_singleton in Hr. rewrite Hr. discriminate.
  - split; [exact Hsearch|]. apply Hlevels. reflexivity.
Defined.

(** * Further properties of the module *)

(** ** Point lookups *)

Lemma filter_first {A} (p : A -> bool) (before : list A) (a : A)
  (after : list A) :
  (forall b, b ∈ before -> p b = false) -> p a = true ->
  List.filter p (before ++ a :: after) = a :: List.filter p after.
Proof.
  intros Hbefore Ha. rewrite List.filter_app, filter_none by done.
  simpl. by rewrite Ha.
Qed.

Lemma getExpressionLevelById_eq self expressionId :
  SqliteRNABackend.getExpressionLevelById self expressionId
  = match List.filter
            (fun r => bool_decide (Expression.id r = expressionId))
            (Expression_rows (SqliteRNABackend._dbconn self)) with
    | [] => Raise (ExpressionLevelNotFoundException expressionId)
    | r :: _ => Return (Expression_record r)
    end.
Proof.
  unfold SqliteRNABackend.getExpressionLevelById.
  erewrite execute_Expression; [|done|done].
  rewrite bind_bind_Return. cbn [apply_limits].
  erewrite filter_ext_bool.
  2:{ intros r. cbn [forallb holds].
      change (column "id" (Expression.to_Row r))
        with (Some (SqlText (Expression.id r))).
      cbn [of_py sql_eq]. apply andb_true_r. }
  by destruct (List.filter _ _).
Qed.

Lemma getExpressionLevelById_absent self (expressionId : string) :
  (forall r, r ∈ Expression_rows (SqliteRNABackend._dbconn self) ->
             Expression.id r <> expressionId) ->
  SqliteRNABackend.getExpressionLevelById self expressionId
  = Raise (ExpressionLevelNotFoundException expressionId).
Proof.
  intros Habsent. rewrite getExpressionLevelById_eq.
  rewrite filter_none; [done|].
  intros r Hr. by apply bool_decide_eq_false_2, Habsent.
Qed.

Lemma getExpressionLevelById_present self (before : list Expression.row)
  (r : Expression.row) (after : list Expression.row) :
  Expression_rows (SqliteRNABackend._dbconn self) = before ++ r :: after ->
  (forall r', r' ∈ before -> Expression.id r' <> Expression.id r) ->
  SqliteRNABackend.getExpressionLevelById self (Expression.id r)
  = Return (Expression_record r).
Proof.
  intros Hrows Hbefore. rewrite getExpressionLevelById_eq, Hrows.
  rewrite filter_first; [done| |by apply bool_decide_eq_true_2].
  intros r' Hr'. by apply bool_decide_eq_false_2, Hbefore.
Qed.

Lemma getRnaQuantificationById_present self
  (before : list RnaQuantification.row) (r : RnaQuantification.row)
  (after : list RnaQuantification.row) :
  RnaQuantification_rows (SqliteRNABackend._dbconn self)
  = before ++ r :: after ->
  (forall r', r' ∈ before ->
              RnaQuantification.id r' <> RnaQuantification.id r) ->
  SqliteRNABackend.getRnaQuantificationById self (RnaQuantification.id r)
  = Return (RnaQuantification_record r).
Proof.
  intros Hrows Hbefore. rewrite getRnaQuantificationById_eq, Hrows.
  rewrite filter_first; [done| |by apply bool_decide_eq_true_2].
  intros r' Hr'. by apply bool_decide_eq_false_2, Hbefore.
Qed.

Lemma getRnaQuantificationById_absent self (rnaQuantificationId : string) :
  (forall r, r ∈ RnaQuantification_rows (SqliteRNABackend._dbconn self) ->
             RnaQuantification.id r <> rnaQuantificationId) ->
  SqliteRNABackend.getRnaQuantificationById self rnaQuantificationId
  = Raise (RnaQuantificationNotFoundException rnaQuantificationId).
Proof.
  intros Habsent. rewrite getRnaQuantificationById_eq.
  rewrite filter_none; [done|].
  intros r Hr. by apply bool_decide_eq_false_2, Habsent.
Qed.

(** X1. For every id that no row of table [Expression] has,
    [getExpressionLevelById] raises [ExpressionLevelNotFoundException]
    with that id. *)
Theorem X1_getExpressionLevelById_not_found self (expressionId : string) :
  (forall r, r ∈ Expression_rows (SqliteRNABackend._dbconn self) ->
             Expression.id r <> expressionId) ->
  SqliteRNABackend.getExpressionLevelById self expressionId
  = Raise (ExpressionLevelNotFoundException expressionId).
Proof. apply getExpressionLevelById_absent. Qed.

Lemma X1_getExpressionLevelById_not_found_witness :
  SqliteRNABackend.getExpressionLevelById Sample.dataSource "e9"
  = Raise (ExpressionLevelNotFoundException "e9").
Proof.
  apply (X1_getExpressionLevelById_not_found Sample.dataSource "e9").
  intros r Hr. apply elem_of_cons in Hr as [->|Hr]; [discriminate|].
  apply list_elem_of_singleton in Hr. rewrite Hr. discriminate.
Defined.

(** X2. When rows of table [Expression] have the id, the lookup returns
    the record of the first of them in store order, whatever follows it. *)
Theorem X2_getExpressionLevelById_first self (before : list Expression.row)
  (r : Expression.row) (after : list Expression.row) :
  Expression_rows (SqliteRNABackend._dbconn self) = before ++ r :: after ->
  (forall r', r' ∈ before -> Expression.id r' <> Expression.id r) ->
  SqliteRNABackend.getExpressionLevelById self (Expression.id r)
  = Return (Expression_record r).
Proof. apply getExpressionLevelById_present. Qed.

Lemma X2_getExpressionLevelById_first_witness :
  SqliteRNABackend.getExpressionLevelById Sample.dataSource "e2"
  = Return (Expression_record Sample.e2).
Proof.
  apply (X2_getExpressionLevelById_first Sample.dataSource [Sample.e1]
           Sample.e2 []).
  - reflexivity.
  - intros r' Hr'. apply list_elem_of_singleton in Hr'. rewrite Hr'.
    discriminate.
Defined.

(** X3. When rows of table [RnaQuantification] have the id,
    [getRnaQuantificationById] returns the record of the first of them in
    store order. *)
Theorem X3_getRnaQuantificationById_first self
  (before : list RnaQuantification.row) (r : RnaQuantification.row)
  (after : list RnaQuantification.row) :
  RnaQuantification_rows (SqliteRNABackend._dbconn self)
  = before ++ r :: after ->
  (forall r', r' ∈ before ->
              RnaQuantification.id r' <> RnaQuantification.id r) ->
  SqliteRNABackend.getRnaQuantificationById self (RnaQuantification.id r)
  = Return (RnaQuantification_record r).
Proof. apply getRnaQuantificationById_present. Qed.

Lemma X3_getRnaQuantificationById_first_witness :
  SqliteRNABackend.getRnaQuantificationById Sample.dataSource_log "rq2"
  = Return (RnaQuantification_record Sample.rq2).
Proof.
  apply (X3_getRnaQuantificationById_first Sample.dataSource_log
           [Sample.rq1] Sample.rq2 []).
  - reflexivity.
  - intros r' Hr'. apply list_elem_of_singleton in Hr'. rewrite Hr'.
    discriminate.
Defined.

(** X4. [RNASeqResult.getExpressionLevel] looks the row up by its id
    alone: it returns the expression level of the first row with that id
    whatever quantification the row belongs to, and the transfer object
    names the receiving quantification, not the row's
    [rna_quantification_id], as its quantification. *)
Theorem X4_getExpressionLevel_not_scoped quantification dataSource
  (before : list Expression.row) (r : Expression.row)
  (after : list Expression.row) :
  RNASeqResult._db quantification = Some dataSource ->
  Expression_rows (SqliteRNABackend._dbconn dataSource)
  = before ++ r :: after ->
  (forall r', r' ∈ before -> Expression.id r' <> Expression.id r) ->
  exists level,
    RNASeqResult.getExpressionLevel quantification (Expression.id r)
    = Return level
    /\ AbstractExpressionLevel._name level = PyStr (Expression.name r)
    /\ AbstractExpressionLevel._expression level
       = PyFloat (Expression.expression r)
    /\ protocol.ExpressionLevel.rna_quantification_id
         (AbstractExpressionLevel.toProtocolElement level)
       = AbstractRNAQuantification.getId (RNASeqResult.super quantification)
    /\ protocol.ExpressionLevel.id
         (AbstractExpressionLevel.toProtocolElement level)
       = AbstractRNAQuantification.getId (RNASeqResult.super quantification)
         ++ [PyStr (Expression.id r)].
Proof.
  intros Hdb Hrows Hbefore. eexists.
  unfold RNASeqResult.getExpressionLevel. rewrite Hdb.
  cbn [SqliteRNABackend.enter]. rewrite bind_bind_Return.
  rewrite (getExpressionLevelById_present _ _ _ _ Hrows Hbefore).
  rewrite bind_bind_Return, ExpressionLevel_init_row. done.
Qed.

Lemma X4_getExpressionLevel_not_scoped_witness :
  Expression.rna_quantification_id Sample.e3 = "rq2"
  /\ exists level,
       RNASeqResult.getExpressionLevel Fixtures.rnaQuantification_log "e3"
       = Return level
       /\ protocol.ExpressionLevel.rna_quantification_id
            (AbstractExpressionLevel.toProtocolElement level)
          = [PyStr "dataset"; PyStr "set"; PyStr "rq1"].
Proof.
  split; [reflexivity|].
  destruct (X4_getExpressionLevel_not_scoped Fixtures.rnaQuantification_log
              Sample.dataSource_log [Sample.e1; Sample.e2] Sample.e3 [])
    as (level & Hlevel & _ & _ & Hquantification & _).
  - reflexivity.
  - reflexivity.
  - intros r' Hr'. apply elem_of_cons in Hr' as [->|Hr']; [discriminate|].
    apply list_elem_of_singleton in Hr'. rewrite Hr'. discriminate.
  - exists level. split; [exact Hlevel|]. exact Hquantification.
Defined.

(** X5. For an id that no row of table [Expression] has,
    [RNASeqResult.getExpressionLevel] of a populated quantification raises
    [ExpressionLevelNotFoundException] with that id: the exception of the
    lookup comes through, and no level is built. *)
Theorem X5_getExpressionLevel_not_found quantification dataSource
  (expression_level_id : string) :
  RNASeqResult._db quantification = Some dataSource ->
  (forall r, r ∈ Expression_rows (SqliteRNABackend._dbconn dataSource) ->
             Expression.id r <> expression_level_id) ->
  RNASeqResult.getExpressionLevel quantification expression_level_id
  = Raise (ExpressionLevelNotFoundException expression_level_id).
Proof.
  intros Hdb Habsent. unfold RNASeqResult.getExpressionLevel. rewrite Hdb.
  cbn [SqliteRNABackend.enter]. rewrite bind_bind_Return.
  by rewrite getExpressionLevelById_absent.
Qed.

Lemma X5_getExpressionLevel_not_found_witness :
  RNASeqResult.getExpressionLevel Sample.rnaQuantification "e9"
  = Raise (ExpressionLevelNotFoundException "e9").
Proof.
  apply (X5_getExpressionLevel_not_found Sample.rnaQuantification
           Sample.dataSource "e9").
  - reflexivity.
  - intros r Hr. apply elem_of_cons in Hr as [->|Hr]; [discriminate|].
    apply list_elem_of_singleton in Hr. rewrite Hr. discriminate.
Defined.

(** ** Hydration from arbitrary records *)

Lemma ExpressionLevel_init_cases parentContainer (record : gmap string pyval) :
  (exists level,
     ExpressionLevel.__init__ parentContainer record = Return level
     /\ Forall (fun key => is_Some (record !! key)) ExpressionLevel_keys)
  \/ (exists key,
        ExpressionLevel.__init__ parentContainer record = Raise (KeyError key)
        /\ key ∈ ExpressionLevel_keys
        /\ record !! key = None).
Proof.
  unfold ExpressionLevel.__init__, getitem, ExpressionLevel_keys.
  repeat
    match goal with
    | |- context [record !! ?key] =>
        destruct (record !! key) eqn:?; rewrite ?bind_bind_Return;
        [|right; exists key; split; [reflexivity|];
          split; [set_solver|done]]
    end.
  left. eexists. split; [reflexivity|].
  repeat (constructor; [done|]). constructor.
Qed.

(** X6. For an expression level of a quantification, and on the records
    whose [id], when there is one, is a string (the local ids that the
    constructor of a data model object is taken to accept as they are),
    [ExpressionLevel.__init__] returns an expression level exactly when the
    record has the nine keys it reads: [id], [expression],
    [is_normalized], [raw_read_count], [score], [units], [name],
    [conf_low] and [conf_hi]. *)
Theorem X6_ExpressionLevel_init_returns_iff (quantification : RNASeqResult.t)
  (record : gmap string pyval) :
  (forall v, record !! "id" = Some v -> exists s, v = PyStr s) ->
  (exists level,
     ExpressionLevel.__init__ (RNASeqResult.as_container quantification)
       record
     = Return level)
  <-> Forall (fun key => is_Some (record !! key)) ExpressionLevel_keys.
Proof.
  intros _.
  destruct (ExpressionLevel_init_cases
              (RNASeqResult.as_container quantification) record)
    as [(level & Hinit & Hkeys)|(key & Hinit & Hkey & Hnone)].
  - split; [done|]. intros _. by exists level.
  - split.
    + intros (level & Hlevel). congruence.
    + intros Hkeys. rewrite Forall_forall in Hkeys.
      apply Hkeys in Hkey. rewrite Hnone in Hkey. by destruct Hkey.
Qed.

Lemma X6_ExpressionLevel_init_returns_iff_witness :
  exists level,
    ExpressionLevel.__init__
      (RNASeqResult.as_container Sample.rnaQuantification)
      (delete "feature_id" (Expression_record Sample.e1))
    = Return level.
Proof.
  apply (X6_ExpressionLevel_init_returns_iff Sample.rnaQuantification
           (delete "feature_id" (Expression_record Sample.e1))).
  - intros v Hv. exists "e1". vm_compute in Hv. congruence.
  - repeat (constructor; [by eexists|]). constructor.
Defined.

(** X7. For an expression level of a quantification, and on the records
    whose [id], when there is one, is a string, the only exception that
    [ExpressionLevel.__init__] raises is the [KeyError] of one of the nine
    keys it reads, and it raises it only when the record lacks that key. *)
Theorem X7_ExpressionLevel_init_raises_KeyError
  (quantification : RNASeqResult.t) (record : gmap string pyval) (e : exn) :
  (forall v, record !! "id" = Some v -> exists s, v = PyStr s) ->
  ExpressionLevel.__init__ (RNASeqResult.as_container quantification) record
  = Raise e ->
  exists key,
    e = KeyError key /\ key ∈ ExpressionLevel_keys /\ record !! key = None.
Proof.
  intros _ Hraise.
  destruct (ExpressionLevel_init_cases
              (RNASeqResult.as_container quantification) record)
    as [(level & Hinit & _)|(key & Hinit & Hkey & Hnone)]; [congruence|].
  exists key. split; [congruence|done].
Qed.

Lemma X7_ExpressionLevel_init_raises_KeyError_witness :
  exists key,
    KeyError "score" = KeyError key
    /\ key ∈ ExpressionLevel_keys
    /\ Fixtures.record_without_score !! key = None.
Proof.
  apply (X7_ExpressionLevel_init_raises_KeyError Sample.rnaQuantification
           Fixtures.record_without_score (KeyError "score")).
  - intros v Hv. exists "e1". vm_compute in Hv. congruence.
  - reflexivity.
Defined.

(** X8. [ExpressionLevel.__init__] reads no other key: setting or removing
    any other entry of the record, such as [feature_id] or
    [rna_quantification_id], changes nothing of what it returns or
    raises. *)
Theorem X8_ExpressionLevel_init_ignores_other_keys parentContainer
  (record : gmap string pyval) (key : string) (v : pyval) :
  key ∉ ExpressionLevel_keys ->
  ExpressionLevel.__init__ parentContainer (<[key := v]> record)
  = ExpressionLevel.__init__ parentContainer record
  /\ ExpressionLevel.__init__ parentContainer (delete key record)
     = ExpressionLevel.__init__ parentContainer record.
Proof.
  intros Hkey. unfold ExpressionLevel.__init__, getitem.
  assert (Hne : forall k, k ∈ ExpressionLevel_keys -> key <> k)
    by (intros k Hk ->; done).
  split.
  - rewrite !lookup_insert_ne
      by (apply Hne; unfold ExpressionLevel_keys; set_solver).
    reflexivity.
  - rewrite !lookup_delete_ne
      by (apply Hne; unfold ExpressionLevel_keys; set_solver).
    reflexivity.
Qed.

Lemma X8_ExpressionLevel_init_ignores_other_keys_witness :
  ExpressionLevel.__init__ Sample.rnaQuantificationSet
    (<["feature_id" := PyStr "f7"]> (Expression_record Sample.e1))
  = ExpressionLevel.__init__ Sample.rnaQuantificationSet
      (Expression_record Sample.e1)
  /\ ExpressionLevel.__init__ Sample.rnaQuantificationSet
       (delete "feature_id" (Expression_record Sample.e1))
     = ExpressionLevel.__init__ Sample.rnaQuantificationSet
         (Expression_record Sample.e1).
Proof.
  apply (X8_ExpressionLevel_init_ignores_other_keys
           Sample.rnaQuantificationSet (Expression_record Sample.e1)
           "feature_id" (PyStr "f7")).
  unfold ExpressionLevel_keys. intros Hin.
  repeat (apply elem_of_cons in Hin as [Hin|Hin]; [discriminate|]).
  by apply elem_of_nil in Hin.
Defined.

(** ** Metadata of a quantification *)

Lemma addRnaQuantMetadata_cases self (fields : gmap string pyval) :
  (exists feature_set_ids description name read_group_ids programs,
     fields !! "feature_set_ids" = Some (PyStr feature_set_ids)
     /\ fields !! "description" = Some description
     /\ fields !! "name" = Some name
     /\ fields !! "read_group_ids" = Some (PyStr read_group_ids)
     /\ fields !! "programs" = Some programs
     /\ AbstractRNAQuantification.addRnaQuantMetadata self fields
        = Return
            {| AbstractRNAQuantification._parentContainer :=
                 AbstractRNAQuantification._parentContainer self;
               AbstractRNAQuantification._localId :=
                 AbstractRNAQuantification._localId self;
               AbstractRNAQuantification._featureSetIds :=
                 str_split feature_set_ids ",";
               AbstractRNAQuantification._description := description;
               AbstractRNAQuantification._name := name;
               AbstractRNAQuantification._readGroupIds :=
                 if bool_decide (read_group_ids = "") then []
                 else str_split read_group_ids ",";
               AbstractRNAQuantification._referenceSet :=
                 AbstractRNAQuantification._referenceSet self;
               AbstractRNAQuantification._programs := [] |})
  \/ (exists key,
        AbstractRNAQuantification.addRnaQuantMetadata self fields
        = Raise (KeyError key)
        /\ key ∈ RnaQuantMetadata_keys
        /\ fields !! key = None)
  \/ (exists key v,
        AbstractRNAQuantification.addRnaQuantMetadata self fields
        = Raise AttributeError
        /\ key ∈ ["feature_set_ids"; "read_group_ids"]
        /\ fields !! key = Some v
        /\ forall s, v <> PyStr s).
Proof.
  unfold AbstractRNAQuantification.addRnaQuantMetadata, getitem,
    RnaQuantMetadata_keys.
  destruct (fields !! "feature_set_ids") as [v1|] eqn:H1;
    [|right; left; exists "feature_set_ids"; split; [reflexivity|];
      split; [set_solver|done]].
  rewrite bind_bind_Return.
  destruct v1 as [| | | |s1];
    try (right; right; exists "feature_set_ids"; eexists;
         split; [reflexivity|]; split; [set_solver|]; split; [exact H1|];
         intros s; discriminate).
  cbn [split]. rewrite bind_bind_Return.
  destruct (fields !! "description") as [d|] eqn:H2;
    [|right; left; exists "description"; split; [reflexivity|];
      split; [set_solver|done]].
  rewrite bind_bind_Return.
  destruct (fields !! "name") as [n|] eqn:H3;
    [|right; left; exists "name"; split; [reflexivity|];
      split; [set_solver|done]].
  rewrite bind_bind_Return.
  destruct (fields !! "read_group_ids") as [v4|] eqn:H4;
    [|right; left; exists "read_group_ids"; split; [reflexivity|];
      split; [set_solver|done]].
  rewrite bind_bind_Return.
  destruct v4 as [| | | |s4];
    try (right; right; exists "read_group_ids"; eexists;
         split; [reflexivity|]; split; [set_solver|]; split; [exact H4|];
         intros s; discriminate).
  cbn [eq_str].
  destruct (fields !! "programs") as [p|] eqn:H5.
  - left. exists s1, d, n, s4, p. repeat (split; [done|]).
    destruct (bool_decide (s4 = ""));
      repeat first [rewrite bind_bind_Return | progress cbn [split]];
      by destruct (eq_str p "").
  - right; left. exists "programs".
    split; [|split; [set_solver|done]].
    destruct (bool_decide (s4 = ""));
      repeat first [rewrite bind_bind_Return | progress cbn [split]];
      reflexivity.
Qed.

(** X9. [addRnaQuantMetadata] returns exactly for the fields that have the
    five keys it reads, with strings under [feature_set_ids] and
    [read_group_ids]; [description], [name] and [programs] may hold any
    value. *)
Theorem X9_addRnaQuantMetadata_returns_iff self (fields : gmap string pyval) :
  (exists self',
     AbstractRNAQuantification.addRnaQuantMetadata self fields = Return self')
  <-> exists feature_set_ids description name read_group_ids programs,
        fields !! "feature_set_ids" = Some (PyStr feature_set_ids)
        /\ fields !! "description" = Some description
        /\ fields !! "name" = Some name
        /\ fields !! "read_group_ids" = Some (PyStr read_group_ids)
        /\ fields !! "programs" = Some programs.
Proof.
  destruct (addRnaQuantMetadata_cases self fields)
    as [(s1 & d & n & s4 & p & H1 & H2 & H3 & H4 & H5 & Hadd)
       |[(key & Hadd & Hkey & Hnone)|(key & v & Hadd & Hkey & Hsome & Hv)]].
  - split; [intros _; by exists s1, d, n, s4, p|]. intros _. eauto.
  - split; [intros (self' & Hself'); congruence|].
    intros (s1 & d & n & s4 & p & H1 & H2 & H3 & H4 & H5).
    unfold RnaQuantMetadata_keys in Hkey.
    repeat (apply elem_of_cons in Hkey as [->|Hkey]; [congruence|]).
    by apply elem_of_nil in Hkey.
  - split; [intros (self' & Hself'); congruence|].
    intros (s1 & d & n & s4 & p & H1 & H2 & H3 & H4 & H5).
    repeat (apply elem_of_cons in Hkey as [->|Hkey];
            [rewrite Hsome in *; simplify_eq; by destruct (Hv _ eq_refl)|]).
    by apply elem_of_nil in Hkey.
Qed.

Lemma X9_addRnaQuantMetadata_returns_iff_witness :
  ~ exists self',
      AbstractRNAQuantification.addRnaQuantMetadata
        (RNASeqResult.super Sample.rnaQuantification)
        Fixtures.fields_null_feature_sets
      = Return self'.
Proof.
  intros Hreturns.
  apply (X9_addRnaQuantMetadata_returns_iff
           (RNASeqResult.super Sample.rnaQuantification)
           Fixtures.fields_null_feature_sets) in Hreturns.
  destruct Hreturns as (s1 & d & n & s4 & p & H1 & _). discriminate H1.
Defined.

(** X10. [addRnaQuantMetadata] raises a [KeyError] only for one of its
    five keys that the fields lack, and an [AttributeError] only when
    [feature_set_ids] or [read_group_ids] holds a value that is no string
    (a NULL column); it raises nothing else. *)
Theorem X10_addRnaQuantMetadata_raises self (fields : gmap string pyval)
  (e : exn) :
  AbstractRNAQuantification.addRnaQuantMetadata self fields = Raise e ->
  (exists key,
     e = KeyError key /\ key ∈ RnaQuantMetadata_keys
     /\ fields !! key = None)
  \/ (e = AttributeError
      /\ exists key v,
           key ∈ ["feature_set_ids"; "read_group_ids"]
           /\ fields !! key = Some v
           /\ forall s, v <> PyStr s).
Proof.
  intros Hraise.
  destruct (addRnaQuantMetadata_cases self fields)
    as [(s1 & d & n & s4 & p & _ & _ & _ & _ & _ & Hadd)
       |[(key & Hadd & Hkey & Hnone)|(key & v & Hadd & Hkey & Hsome & Hv)]].
  - congruence.
  - left. exists key. split; [congruence|done].
  - right. split; [congruence|]. by exists key, v.
Qed.

Lemma X10_addRnaQuantMetadata_raises_witness :
  (exists key,
     AttributeError = KeyError key /\ key ∈ RnaQuantMetadata_keys
     /\ Fixtures.fields_null_feature_sets !! key = None)
  \/ (AttributeError = AttributeError
      /\ exists key v,
           key ∈ ["feature_set_ids"; "read_group_ids"]
           /\ Fixtures.fields_null_feature_sets !! key = Some v
           /\ forall s, v <> PyStr s).
Proof.
  apply (X10_addRnaQuantMetadata_raises
           (RNASeqResult.super Sample.rnaQuantification)
           Fixtures.fields_null_feature_sets AttributeError).
  reflexivity.
Defined.

(** X11. [addRnaQuantMetadata] keeps the identity of the quantification:
    its parent container, local id and reference set, hence its compound
    id, stay as they were. It stores the [name] and [description] fields
    as they are, and leaves no program reference. *)
Theorem X11_addRnaQuantMetadata_keeps_identity self
  (fields : gmap string pyval) self' :
  AbstractRNAQuantification.addRnaQuantMetadata self fields = Return self' ->
  AbstractRNAQuantification.getId self' = AbstractRNAQuantification.getId self
  /\ AbstractRNAQuantification._localId self'
     = AbstractRNAQuantification._localId self
  /\ AbstractRNAQuantification._referenceSet self'
     = AbstractRNAQuantification._referenceSet self
  /\ fields !! "name" = Some (AbstractRNAQuantification._name self')
  /\ fields !! "description"
     = Some (AbstractRNAQuantification._description self')
  /\ AbstractRNAQuantification._programs self' = [].
Proof.
  intros Hreturn.
  destruct (addRnaQuantMetadata_cases self fields)
    as [(s1 & d & n & s4 & p & H1 & H2 & H3 & H4 & H5 & Hadd)
       |[(key & Hadd & _)|(key & v & Hadd & _)]]; [|congruence..].
  rewrite Hadd in Hreturn. injection Hreturn as <-. done.
Qed.

Lemma X11_addRnaQuantMetadata_keeps_identity_witness :
  exists self',
    AbstractRNAQuantification.getId self'
    = [PyStr "dataset"; PyStr "set"; PyStr "rq1"]
    /\ AbstractRNAQuantification._name self' = PyStr "rq2".
Proof.
  eexists.
  destruct (X11_addRnaQuantMetadata_keeps_identity
              (RNASeqResult.super Sample.rnaQuantification)
              (RnaQuantification_record Sample.rq2) _
              (addRnaQuantMetadata_row _ Sample.rq2))
    as (Hid & _).
  split; [exact Hid|reflexivity].
Defined.

(** ** Comma-separated columns *)

Lemma string_app_cons (c : ascii) (s t : string) :
  (String c s +:+ t)%string = String c (s +:+ t).
Proof. reflexivity. Qed.

Lemma string_app_nil_r (s : string) : (s +:+ "")%string = s.
Proof.
  induction s as [|c s IH]; [done|]. by rewrite string_app_cons, IH.
Qed.

Lemma string_app_assoc (a b c : string) :
  ((a +:+ b) +:+ c)%string = (a +:+ (b +:+ c))%string.
Proof.
  induction a as [|x a IH]; [done|]. by rewrite !string_app_cons, IH.
Qed.

Lemma string_of_list_ascii_snoc (l : list ascii) (c : ascii) :
  string_of_list_ascii (l ++ [c])
  = (string_of_list_ascii l +:+ String c "")%string.
Proof.
  induction l as [|x l IH]; [done|].
  cbn [app string_of_list_ascii]. by rewrite string_app_cons, IH.
Qed.

Lemma split_from_cons (sep : ascii) (cur : list ascii) (s : string) :
  exists piece pieces, split_from sep cur s = piece :: pieces.
Proof.
  revert cur. induction s as [|c s IH]; intros cur; simpl; [eauto|].
  case_bool_decide; eauto.
Qed.

Lemma join_split_from (sep : ascii) (cur : list ascii) (s : string) :
  join (String sep "") (split_from sep cur s)
  = (string_of_list_ascii (rev cur) +:+ s)%string.
Proof.
  unfold join. revert cur. induction s as [|c s IH]; intros cur.
  - simpl. by rewrite string_app_nil_r.
  - cbn [split_from]. case_bool_decide as Hc.
    + subst c. destruct (split_from_cons sep [] s) as (piece & pieces & Hs).
      specialize (IH []). rewrite Hs in *.
      change (String.concat (String sep "") (?x :: piece :: pieces))
        with (x +:+ String sep "" +:+
              String.concat (String sep "") (piece :: pieces))%string.
      by rewrite IH.
    + rewrite IH. cbn [rev]. rewrite string_of_list_ascii_snoc.
      by rewrite string_app_assoc.
Qed.

Lemma join_str_split (s : string) (sep : ascii) :
  join (String sep "") (str_split s sep) = s.
Proof. unfold str_split. by rewrite join_split_from. Qed.

Lemma not_elem_of_rev {A} (x : A) (l : list A) : x ∉ l -> x ∉ rev l.
Proof.
  intros Hx Hin. apply Hx. apply list_elem_of_In.
  apply list_elem_of_In in Hin. by apply in_rev.
Qed.

Lemma split_from_no_sep (sep : ascii) (cur : list ascii) (s : string) :
  sep ∉ cur ->
  Forall (fun piece => sep ∉ list_ascii_of_string piece)
    (split_from sep cur s).
Proof.
  revert cur. induction s as [|c s IH]; intros cur Hcur.
  - constructor; [|constructor].
    rewrite list_ascii_of_string_of_list_ascii. by apply not_elem_of_rev.
  - cbn [split_from]. case_bool_decide as Hc.
    + constructor; [|apply IH, not_elem_of_nil].
      rewrite list_ascii_of_string_of_list_ascii. by apply not_elem_of_rev.
    + apply IH. rewrite not_elem_of_cons. split; [congruence|done].
Qed.

(** X12. The comma-separated columns hydrate without loss: for every row
    of table [RnaQuantification], joining the hydrated feature-set ids
    with commas gives back the [feature_set_ids] column, joining the
    hydrated read-group ids gives back the [read_group_ids] column, and no
    hydrated id contains a comma. *)
Theorem X12_comma_columns_round_trip (self : AbstractRNAQuantification.t)
  (r : RnaQuantification.row) :
  exists self',
    AbstractRNAQuantification.addRnaQuantMetadata self
      (RnaQuantification_record r)
    = Return self'
    /\ join "," (AbstractRNAQuantification._featureSetIds self')
       = RnaQuantification.feature_set_ids r
    /\ join "," (AbstractRNAQuantification._readGroupIds self')
       = RnaQuantification.read_group_ids r
    /\ Forall (fun id_ => ","%char ∉ list_ascii_of_string id_)
         (AbstractRNAQuantification._featureSetIds self'
          ++ AbstractRNAQuantification._readGroupIds self').
Proof.
  eexists. rewrite addRnaQuantMetadata_row. split; [reflexivity|].
  cbn [AbstractRNAQuantification._featureSetIds
       AbstractRNAQuantification._readGroupIds].
  split; [apply join_str_split|].
  case_bool_decide as Hempty.
  - split; [by rewrite Hempty|]. rewrite app_nil_r.
    apply split_from_no_sep, not_elem_of_nil.
  - split; [apply join_str_split|].
    apply Forall_app; split; apply split_from_no_sep, not_elem_of_nil.
Qed.

(** ** Populating a quantification *)

Lemma addRnaQuantMetadata_Return self (fields : gmap string pyval)
  (feature_set_ids : string) (description name : pyval)
  (read_group_ids : string) (programs : pyval) :
  fields !! "feature_set_ids" = Some (PyStr feature_set_ids) ->
  fields !! "description" = Some description ->
  fields !! "name" = Some name ->
  fields !! "read_group_ids" = Some (PyStr read_group_ids) ->
  fields !! "programs" = Some programs ->
  AbstractRNAQuantification.addRnaQuantMetadata self fields
  = Return
      {| AbstractRNAQuantification._parentContainer :=
           AbstractRNAQuantification._parentContainer self;
         AbstractRNAQuantification._localId :=
           AbstractRNAQuantification._localId self;
         AbstractRNAQuantification._featureSetIds :=
           str_split feature_set_ids ",";
         AbstractRNAQuantification._description := description;
         AbstractRNAQuantification._name := name;
         AbstractRNAQuantification._readGroupIds :=
           if bool_decide (read_group_ids = "") then []
           else str_split read_group_ids ",";
         AbstractRNAQuantification._referenceSet :=
           AbstractRNAQuantification._referenceSet self;
         AbstractRNAQuantification._programs := [] |}.
Proof.
  intros H1 H2 H3 H4 H5.
  destruct (addRnaQuantMetadata_cases self fields)
    as [(s1 & d & n & s4 & p & H1' & H2' & H3' & H4' & H5' & Hadd)
       |[(key & _ & Hkey & Hnone)|(key & v & _ & Hkey & Hsome & Hv)]].
  - by simplify_eq.
  - unfold RnaQuantMetadata_keys in Hkey.
    repeat (apply elem_of_cons in Hkey as [->|Hkey]; [congruence|]).
    by apply elem_of_nil in Hkey.
  - repeat (apply elem_of_cons in Hkey as [->|Hkey];
            [rewrite Hsome in *; simplify_eq; by destruct (Hv _ eq_refl)|]).
    by apply elem_of_nil in Hkey.
Qed.

Lemma addRnaQuantMetadata_again self (fields : gmap string pyval) self' :
  AbstractRNAQuantification.addRnaQuantMetadata self fields = Return self' ->
  AbstractRNAQuantification.addRnaQuantMetadata self' fields = Return self'.
Proof.
  intros Hreturn.
  destruct (addRnaQuantMetadata_cases self fields)
    as [(s1 & d & n & s4 & p & H1 & H2 & H3 & H4 & H5 & Hadd)
       |[(key & Hadd & _)|(key & v & Hadd & _)]]; [|congruence..].
  rewrite Hadd in Hreturn. injection Hreturn as <-.
  by rewrite (addRnaQuantMetadata_Return _ _ _ _ _ _ _ H1 H2 H3 H4 H5).
Qed.

(** X13. For a populated quantification whose local id no row of table
    [RnaQuantification] has as id, [getRnaQuantMetadata] raises
    [RnaQuantificationNotFoundException] with the local id. *)
Theorem X13_getRnaQuantMetadata_not_found quantification dataSource :
  RNASeqResult._db quantification = Some dataSource ->
  (forall r, r ∈ RnaQuantification_rows (SqliteRNABackend._dbconn dataSource) ->
             RnaQuantification.id r
             <> AbstractRNAQuantification._localId
                  (RNASeqResult.super quantification)) ->
  RNASeqResult.getRnaQuantMetadata quantification
  = Raise (RnaQuantificationNotFoundException
             (AbstractRNAQuantification._localId
                (RNASeqResult.super quantification))).
Proof.
  intros Hdb Habsent. unfold RNASeqResult.getRnaQuantMetadata. rewrite Hdb.
  cbn [SqliteRNABackend.enter]. rewrite bind_bind_Return.
  unfold AbstractRNAQuantification.getLocalId.
  by rewrite getRnaQuantificationById_absent.
Qed.

Lemma X13_getRnaQuantMetadata_not_found_witness :
  RNASeqResult.getRnaQuantMetadata
    {| RNASeqResult.super :=
         AbstractRNAQuantification.__init__ Sample.rnaQuantificationSet "rq7";
       RNASeqResult._dbFilePath := Some "rnaQuant.db";
       RNASeqResult._db := Some Sample.dataSource |}
  = Raise (RnaQuantificationNotFoundException "rq7").
Proof.
  apply (X13_getRnaQuantMetadata_not_found
           {| RNASeqResult.super :=
                AbstractRNAQuantification.__init__
                  Sample.rnaQuantificationSet "rq7";
              RNASeqResult._dbFilePath := Some "rnaQuant.db";
              RNASeqResult._db := Some Sample.dataSource |}
           Sample.dataSource).
  - reflexivity.
  - intros r Hr. apply list_elem_of_singleton in Hr. rewrite Hr.
    discriminate.
Defined.

(** X14. For a populated quantification, [getRnaQuantMetadata] takes the
    metadata of the first row whose id is the local id: the name and the
    description of that row. The data source, the file path and the
    compound id stay as they were, and populating the result again changes
    nothing. *)
Theorem X14_getRnaQuantMetadata_found quantification dataSource
  (before : list RnaQuantification.row) (r : RnaQuantification.row)
  (after : list RnaQuantification.row) :
  RNASeqResult._db quantification = Some dataSource ->
  RnaQuantification_rows (SqliteRNABackend._dbconn dataSource)
  = before ++ r :: after ->
  (forall r', r' ∈ before ->
              RnaQuantification.id r' <> RnaQuantification.id r) ->
  RnaQuantification.id r
  = AbstractRNAQuantification._localId (RNASeqResult.super quantification) ->
  exists populated,
    RNASeqResult.getRnaQuantMetadata quantification = Return populated
    /\ AbstractRNAQuantification._name (RNASeqResult.super populated)
       = PyStr (RnaQuantification.name r)
    /\ AbstractRNAQuantification._description (RNASeqResult.super populated)
       = PyStr (RnaQuantification.description r)
    /\ RNASeqResult._db populated = RNASeqResult._db quantification
    /\ RNASeqResult._dbFilePath populated
       = RNASeqResult._dbFilePath quantification
    /\ AbstractRNAQuantification.getId (RNASeqResult.super populated)
       = AbstractRNAQuantification.getId (RNASeqResult.super quantification)
    /\ RNASeqResult.getRnaQuantMetadata populated = Return populated.
Proof.
  intros Hdb Hrows Hbefore Hid.
  assert (Hget : forall q,
    RNASeqResult._db q = Some dataSource ->
    AbstractRNAQuantification._localId (RNASeqResult.super q)
    = RnaQuantification.id r ->
    RNASeqResult.getRnaQuantMetadata q
    = (super' ← AbstractRNAQuantification.addRnaQuantMetadata
                  (RNASeqResult.super q) (RnaQuantification_record r);
       Return {| RNASeqResult.super := super';
                 RNASeqResult._dbFilePath := RNASeqResult._dbFilePath q;
                 RNASeqResult._db := RNASeqResult._db q |})).
  { intros q Hq Hlocal. unfold RNASeqResult.getRnaQuantMetadata.
    rewrite Hq. cbn [SqliteRNABackend.enter]. rewrite bind_bind_Return.
    unfold AbstractRNAQuantification.getLocalId. rewrite Hlocal.
    rewrite (getRnaQuantificationById_present _ _ _ _ Hrows Hbefore).
    by rewrite bind_bind_Return. }
  eexists. rewrite (Hget quantification Hdb (eq_sym Hid)).
  rewrite addRnaQuantMetadata_row, bind_bind_Return.
  split; [reflexivity|]. repeat (split; [reflexivity|]).
  rewrite Hget by done.
  rewrite addRnaQuantMetadata_row, bind_bind_Return. reflexivity.
Qed.

Lemma X14_getRnaQuantMetadata_found_witness :
  exists populated,
    RNASeqResult.getRnaQuantMetadata Sample.rnaQuantification
    = Return populated
    /\ AbstractRNAQuantification._description (RNASeqResult.super populated)
       = PyStr "first quantification"
    /\ RNASeqResult.getRnaQuantMetadata populated = Return populated.
Proof.
  destruct (X14_getRnaQuantMetadata_found Sample.rnaQuantification
              Sample.dataSource [] Sample.rq1 [])
    as (populated & Hget & _ & Hdescription & _ & _ & _ & Hagain).
  - reflexivity.
  - reflexivity.
  - intros r' Hr'. by apply elem_of_nil in Hr'.
  - reflexivity.
  - exists populated. split; [exact Hget|]. split; [exact Hdescription|].
    exact Hagain.
Defined.

(** X15. [addRnaQuantMetadata] overwrites: adding the same fields a
    second time gives the quantification that the first time gave. *)
Theorem X15_addRnaQuantMetadata_idempotent self (fields : gmap string pyval)
  self' :
  AbstractRNAQuantification.addRnaQuantMetadata self fields = Return self' ->
  AbstractRNAQuantification.addRnaQuantMetadata self' fields = Return self'.
Proof. apply addRnaQuantMetadata_again. Qed.

Lemma X15_addRnaQuantMetadata_idempotent_witness :
  exists self',
    AbstractRNAQuantification.addRnaQuantMetadata
      (RNASeqResult.super Sample.rnaQuantification)
      (RnaQuantification_record Sample.rq2)
    = Return self'
    /\ AbstractRNAQuantification.addRnaQuantMetadata self'
         (RnaQuantification_record Sample.rq2)
       = Return self'.
Proof.
  eexists. split.
  - apply addRnaQuantMetadata_row.
  - apply (X15_addRnaQuantMetadata_idempotent
             (RNASeqResult.super Sample.rnaQuantification)
             (RnaQuantification_record Sample.rq2)).
    apply addRnaQuantMetadata_row.
Defined.

(** ** List queries *)

Lemma filter_sublist {A} (p : A -> bool) (l : list A) :
  sublist (List.filter p l) l.
Proof.
  induction l as [|a l IH]; simpl; [constructor|].
  destruct (p a); by constructor.
Qed.

Lemma page_sublist {A} pageToken pageSize (l : list A) :
  sublist (Spec.page pageToken pageSize l) l.
Proof.
  unfold Spec.page. destruct pageSize as [k|].
  - etransitivity; [apply sublist_take|apply sublist_drop].
  - apply sublist_drop.
Qed.

(** X16. [searchRnaQuantificationsInDb] never raises, whatever id it is
    given. With the id left out or empty it returns the rows it returns
    for no id; with a non-empty id every record it returns has that id,
    and when no row has it the result is the empty list, not the
    not-found exception that its handler names. *)
Theorem X16_searchRnaQuantifications_total self pageToken pageSize :
  SqliteRNABackend.searchRnaQuantificationsInDb self pageToken pageSize
    (Some "")
  = SqliteRNABackend.searchRnaQuantificationsInDb self pageToken pageSize
      None
  /\ forall rnaQuantificationId,
       exists returned,
         SqliteRNABackend.searchRnaQuantificationsInDb self pageToken
           pageSize rnaQuantificationId
         = Return returned
         /\ forall id_,
              rnaQuantificationId = Some id_ -> id_ <> "" ->
              Forall (fun record => getitem record "id" = Return (PyStr id_))
                returned
              /\ ((forall r,
                     r ∈ RnaQuantification_rows
                           (SqliteRNABackend._dbconn self) ->
                     RnaQuantification.id r <> id_) ->
                  returned = []).
Proof.
  split; [by rewrite !search_RnaQuantifications|].
  intros rnaQuantificationId. eexists.
  split; [apply search_RnaQuantifications|].
  intros id_ -> Hne. destruct id_ as [|c s]; [done|]. split.
  - apply Forall_fmap.
    eapply Forall_impl; [apply page_Forall, filter_Forall|].
    intros r Hr. cbn in Hr. apply bool_decide_eq_true in Hr.
    cbn. by rewrite <- Hr.
  - intros Habsent. rewrite filter_none; [by rewrite page_nil|].
    intros r Hr. cbn. by apply bool_decide_eq_false_2, Habsent.
Qed.

Lemma X16_searchRnaQuantifications_total_witness :
  SqliteRNABackend.searchRnaQuantificationsInDb Sample.dataSource None None
    (Some "rq7")
  = Return [].
Proof.
  destruct (X16_searchRnaQuantifications_total Sample.dataSource None None)
    as [_ Htotal].
  destruct (Htotal (Some "rq7")) as (returned & Hreturned & Hid).
  destruct (Hid "rq7" eq_refl) as [_ Hnone]; [discriminate|].
  rewrite Hreturned. f_equal. apply Hnone.
  intros r Hr. apply list_elem_of_singleton in Hr. rewrite Hr. discriminate.
Defined.

(** X17. [searchExpressionLevelsInDb] returns records of rows of table
    [Expression] only, in store order and no row more often than the table
    has it, and every one of them belongs to the quantification that was
    asked for. *)
Theorem X17_searchExpressionLevels_scope self (rnaQuantId : string)
  featureIds pageToken pageSize threshold :
  exists selected,
    SqliteRNABackend.searchExpressionLevelsInDb self rnaQuantId featureIds
      pageToken pageSize threshold
    = Return (Expression_record <$> selected)
    /\ sublist selected (Expression_rows (SqliteRNABackend._dbconn self))
    /\ Forall (fun r => Expression.rna_quantification_id r = rnaQuantId)
         selected.
Proof.
  eexists. split; [apply search_Expression|]. split.
  - unfold Spec.ScopedList.
    etransitivity; [apply page_sublist|apply filter_sublist].
  - eapply Forall_impl; [apply ScopedList_Forall|].
    intros r Hr. unfold Spec.scoped in Hr.
    apply andb_prop in Hr as [Hr _]. apply andb_prop in Hr as [Hr _].
    by apply bool_decide_eq_true in Hr.
Qed.

Lemma comprehension_fmap_Return {A B C : Type} (f : B -> result C)
  (g : A -> B) (h : A -> C) (l : list A) :
  (forall a, f (g a) = Return (h a)) ->
  comprehension f (g <$> l) = Return (h <$> l).
Proof.
  intros Hf. induction l as [|a l IH]; csimpl; [done|].
  by rewrite Hf, IH.
Qed.

(** X18. [getExpressionLevels] of a populated quantification never raises:
    it returns one expression level for each record that
    [searchExpressionLevelsInDb] returns, in the same order, with the id,
    the name and the expression value of the row. Every level names the
    receiving quantification as its quantification, whatever
    [rnaQuantID] was asked for. *)
Theorem X18_getExpressionLevels_one_per_row quantification dataSource
  (rnaQuantID : string) pageToken pageSize threshold featureIds :
  RNASeqResult._db quantification = Some dataSource ->
  exists selected levels,
    SqliteRNABackend.searchExpressionLevelsInDb dataSource rnaQuantID
      featureIds pageToken pageSize threshold
    = Return (Expression_record <$> selected)
    /\ RNASeqResult.getExpressionLevels quantification rnaQuantID pageToken
         pageSize threshold featureIds
       = Return levels
    /\ Forall2
         (fun level r =>
            AbstractExpressionLevel._localId level = PyStr (Expression.id r)
            /\ AbstractExpressionLevel._name level
               = PyStr (Expression.name r)
            /\ AbstractExpressionLevel._expression level
               = PyFloat (Expression.expression r)
            /\ protocol.ExpressionLevel.rna_quantification_id
                 (AbstractExpressionLevel.toProtocolElement level)
               = AbstractRNAQuantification.getId
                   (RNASeqResult.super quantification))
         levels selected.
Proof.
  intros Hdb. eexists. eexists.
  split; [apply search_Expression|].
  rewrite (getExpressionLevels_unfold _ _ _ _ _ _ _ Hdb).
  erewrite comprehension_fmap_Return
    by (intros r; apply ExpressionLevel_init_row).
  split; [reflexivity|].
  apply Forall2_fmap_l, Forall_Forall2_diag, Forall_forall. done.
Qed.

Lemma X18_getExpressionLevels_one_per_row_witness :
  exists selected levels,
    SqliteRNABackend.searchExpressionLevelsInDb Sample.dataSource_log "rq2"
      (Some []) (Some 0) None (Some (-2)%float)
    = Return (Expression_record <$> selected)
    /\ RNASeqResult.getExpressionLevels Fixtures.rnaQuantification_log "rq2"
         (Some 0) None (Some (-2)%float) (Some [])
       = Return levels
    /\ length levels = length selected.
Proof.
  destruct (X18_getExpressionLevels_one_per_row
              Fixtures.rnaQuantification_log Sample.dataSource_log "rq2"
              (Some 0) None (Some (-2)%float) (Some []))
    as (selected & levels & Hsearch & Hlevels & Hrows).
  - reflexivity.
  - exists selected, levels. split; [exact Hsearch|].
    split; [exact Hlevels|]. by apply Forall2_length in Hrows.
Defined.

(** ** The set of quantifications *)

Lemma filter_true {A} (l : list A) : List.filter (fun _ => true) l = l.
Proof. induction l as [|a l IH]; simpl; by rewrite ?IH. Qed.

Lemma searchRnaQuantifications_all dataSource :
  SqliteRNABackend.searchRnaQuantificationsInDb dataSource None None None
  = Return (RnaQuantification_record <$>
              RnaQuantification_rows (SqliteRNABackend._dbconn dataSource)).
Proof.
  rewrite search_RnaQuantifications. cbn. by rewrite filter_true.
Qed.

Lemma filter_some {A} (p : A -> bool) (l : list A) (a : A) :
  a ∈ l -> p a = true ->
  exists before b after,
    l = before ++ b :: after /\ p b = true
    /\ forall b', b' ∈ before -> p b' = false.
Proof.
  induction l as [|x l IH]; intros Hin Hp; [by apply elem_of_nil in Hin|].
  destruct (p x) eqn:Hx.
  - exists [], x, l. split; [done|]. split; [done|].
    intros b' Hb'. by apply elem_of_nil in Hb'.
  - apply elem_of_cons in Hin as [->|Hin]; [congruence|].
    destruct (IH Hin Hp) as (before & b & after & -> & Hb & Hbefore).
    exists (x :: before), b, after. split; [done|]. split; [done|].
    intros b' Hb'. apply elem_of_cons in Hb' as [->|Hb']; auto.
Qed.

Lemma getRnaQuantificationById_some dataSource (rnaQuantificationId : string) :
  (exists r,
     r ∈ RnaQuantification_rows (SqliteRNABackend._dbconn dataSource)
     /\ RnaQuantification.id r = rnaQuantificationId) ->
  exists r,
    r ∈ RnaQuantification_rows (SqliteRNABackend._dbconn dataSource)
    /\ RnaQuantification.id r = rnaQuantificationId
    /\ SqliteRNABackend.getRnaQuantificationById dataSource
         rnaQuantificationId
       = Return (RnaQuantification_record r).
Proof.
  intros (r & Hr & Hid).
  destruct (filter_some
              (fun r => bool_decide (RnaQuantification.id r = rnaQuantificationId))
              _ r Hr)
    as (before & b & after & Hrows & Hb & Hbefore);
    [by apply bool_decide_eq_true_2|].
  apply bool_decide_eq_true in Hb. exists b. split; [|split; [done|]].
  - rewrite Hrows. apply elem_of_app. right. left.
  - subst rnaQuantificationId. rewrite <- Hb.
    apply (getRnaQuantificationById_present _ _ _ _ Hrows).
    intros r' Hr'. apply Hbefore in Hr'. rewrite Hb.
    by apply bool_decide_eq_false in Hr'.
Qed.

Lemma for_each_app {A S} (l1 l2 : list A) (body : S -> A -> result S) (s : S) :
  for_each (l1 ++ l2) body s
  = (s' ← for_each l1 body s; for_each l2 body s').
Proof.
  revert s. induction l1 as [|a l1 IH]; intros s; [done|].
  cbn [app for_each]. destruct (body s a) as [s'|e]; [|done].
  rewrite !bind_bind_Return. apply IH.
Qed.

Lemma dict_getitems_Found {A} (P : datamodel.CompoundId -> A -> Prop)
  (d : gmap datamodel.CompoundId A) (keys : list datamodel.CompoundId) :
  Forall (fun key => exists a, d !! key = Some a /\ P key a) keys ->
  exists l, dict_getitems d keys = Found l /\ Forall2 (fun a key => P key a) l keys.
Proof.
  induction 1 as [|key keys (a & Ha & HP) _ (l & Hl & HF)].
  - exists []. by split; [|constructor].
  - exists (a :: l). cbn [dict_getitems]. unfold dict_getitem.
    rewrite Ha, Hl. split; [done|by constructor].
Qed.

Lemma list_getitem_Found {A} (l : list A) (index : Z) :
  (- Z.of_nat (length l) <= index < Z.of_nat (length l))%Z ->
  exists a,
    list_getitem l index = Found a
    /\ l !! Z.to_nat (index mod Z.of_nat (length l)) = Some a.
Proof.
  intros Hrange. unfold list_getitem.
  assert (Hpos : (0 < Z.of_nat (length l))%Z) by lia.
  destruct (0 <=? index)%Z eqn:Hsign.
  - apply Z.leb_le in Hsign. cbn [mbind option_bind].
    rewrite Z.mod_small by lia.
    destruct (lookup_lt_is_Some_2 l (Z.to_nat index)) as [a Ha]; [lia|].
    exists a. by rewrite Ha.
  - apply Z.leb_gt in Hsign.
    rewrite (proj2 (Z.leb_le _ _)) by lia. cbn [mbind option_bind].
    replace (index mod Z.of_nat (length l))%Z
      with (Z.of_nat (length l) + index)%Z.
    2:{ apply Z.mod_unique with (q := (-1)%Z); lia. }
    destruct (lookup_lt_is_Some_2 l (Z.to_nat (Z.of_nat (length l) + index)))
      as [a Ha]; [lia|].
    exists a. by rewrite Ha.
Qed.

Lemma list_getitem_IndexError {A} (l : list A) (index : Z) :
  (index < - Z.of_nat (length l) \/ Z.of_nat (length l) <= index)%Z ->
  list_getitem l index = @IndexError A.
Proof.
  intros Hrange. unfold list_getitem.
  destruct (0 <=? index)%Z eqn:Hsign.
  - apply Z.leb_le in Hsign. cbn [mbind option_bind].
    rewrite lookup_ge_None_2 by lia. done.
  - apply Z.leb_gt in Hsign.
    rewrite (proj2 (Z.leb_gt _ _)) by lia. done.
Qed.

Section RnaQuantificationSet_properties.

Variable connect : option string -> result Db.
Variable check_localId : pyval -> result string.

(** The constructor of a data model object accepts a string as local id. *)
Hypothesis check_localId_str : forall s, check_localId (PyStr s) = Return s.

Lemma RNASeqResult_populateFromFile_found parentContainer (localId : string)
  (dataUrl : option string) (db : Db) :
  connect dataUrl = Return db ->
  (exists r, r ∈ RnaQuantification_rows db
             /\ RnaQuantification.id r = localId) ->
  exists populated r,
    r ∈ RnaQuantification_rows db
    /\ RnaQuantification.id r = localId
    /\ RnaQuantificationSet.RNASeqResult_populateFromFile connect
         (RNASeqResult.__init__ parentContainer localId) dataUrl
       = Return populated
    /\ AbstractRNAQuantification.getId (RNASeqResult.super populated)
       = datamodel.container_getId parentContainer ++ [PyStr localId]
    /\ AbstractRNAQuantification._name (RNASeqResult.super populated)
       = PyStr (RnaQuantification.name r)
    /\ AbstractRNAQuantification._description (RNASeqResult.super populated)
       = PyStr (RnaQuantification.description r)
    /\ RNASeqResult._dbFilePath populated = dataUrl
    /\ RNASeqResult._db populated
       = Some {| SqliteRNABackend._dbconn := db |}.
Proof.
  intros Hconnect Hsome.
  destruct (getRnaQuantificationById_some
              {| SqliteRNABackend._dbconn := db |} localId Hsome)
    as (r & Hr & Hid & Hget).
  eexists. exists r. split; [exact Hr|]. split; [exact Hid|].
  unfold RnaQuantificationSet.RNASeqResult_populateFromFile,
    RnaQuantificationSet.open_.
  rewrite Hconnect, !bind_bind_Return.
  unfold RNASeqResult.getRnaQuantMetadata.
  cbn [RNASeqResult._db SqliteRNABackend.enter]. rewrite bind_bind_Return.
  change (AbstractRNAQuantification.getLocalId _) with localId.
  rewrite Hget, bind_bind_Return, addRnaQuantMetadata_row, bind_bind_Return.
  split; [reflexivity|]. done.
Qed.

Lemma RNASeqResult_populateFromFile_absent parentContainer (localId : string)
  (dataUrl : option string) (db : Db) :
  connect dataUrl = Return db ->
  (forall r, r ∈ RnaQuantification_rows db ->
             RnaQuantification.id r <> localId) ->
  RnaQuantificationSet.RNASeqResult_populateFromFile connect
    (RNASeqResult.__init__ parentContainer localId) dataUrl
  = Raise (RnaQuantificationNotFoundException localId).
Proof.
  intros Hconnect Habsent.
  unfold RnaQuantificationSet.RNASeqResult_populateFromFile,
    RnaQuantificationSet.open_.
  rewrite Hconnect, !bind_bind_Return.
  unfold RNASeqResult.getRnaQuantMetadata.
  cbn [RNASeqResult._db SqliteRNABackend.enter]. rewrite bind_bind_Return.
  change (AbstractRNAQuantification.getLocalId _) with localId.
  by rewrite getRnaQuantificationById_absent.
Qed.

Lemma addRnaQuant_found (self : RnaQuantificationSet.t)
  (r : RnaQuantification.row) (db : Db) :
  connect (RnaQuantificationSet._dbFilePath self) = Return db ->
  (exists r', r' ∈ RnaQuantification_rows db
              /\ RnaQuantification.id r' = RnaQuantification.name r) ->
  exists rnaQuantification,
    RnaQuantificationSet.addRnaQuant connect check_localId self
      (RnaQuantification_record r)
    = Return
        {| RnaQuantificationSet.super := RnaQuantificationSet.super self;
           RnaQuantificationSet._dbFilePath :=
             RnaQuantificationSet._dbFilePath self;
           RnaQuantificationSet._db := RnaQuantificationSet._db self;
           RnaQuantificationSet._rnaQuantIdMap :=
             <[AbstractRNAQuantificationSet.getId
                 (RnaQuantificationSet.super self)
               ++ [PyStr (RnaQuantification.name r)] := rnaQuantification]>
               (RnaQuantificationSet._rnaQuantIdMap self);
           RnaQuantificationSet._rnaQuantIds :=
             RnaQuantificationSet._rnaQuantIds self
             ++ [AbstractRNAQuantificationSet.getId
                   (RnaQuantificationSet.super self)
                 ++ [PyStr (RnaQuantification.name r)]] |}
    /\ AbstractRNAQuantification.getId (RNASeqResult.super rnaQuantification)
       = AbstractRNAQuantificationSet.getId (RnaQuantificationSet.super self)
         ++ [PyStr (RnaQuantification.name r)]
    /\ RNASeqResult._dbFilePath rnaQuantification
       = RnaQuantificationSet._dbFilePath self
    /\ RNASeqResult._db rnaQuantification
       = Some {| SqliteRNABackend._dbconn := db |}.
Proof.
  intros Hconnect Hsome.
  destruct (RNASeqResult_populateFromFile_found
              (RnaQuantificationSet.as_container self)
              (RnaQuantification.name r) _ db Hconnect Hsome)
    as (q & r' & _ & _ & Hpopulate & Hid & _ & _ & Hpath & Hdb).
  exists q. unfold RnaQuantificationSet.addRnaQuant.
  change (getitem (RnaQuantification_record r) "name")
    with (Return (PyStr (RnaQuantification.name r))).
  rewrite bind_bind_Return, check_localId_str, bind_bind_Return.
  rewrite Hpopulate, bind_bind_Return, Hid. done.
Qed.

Lemma addRnaQuant_absent (self : RnaQuantificationSet.t)
  (r : RnaQuantification.row) (db : Db) :
  connect (RnaQuantificationSet._dbFilePath self) = Return db ->
  (forall r', r' ∈ RnaQuantification_rows db ->
              RnaQuantification.id r' <> RnaQuantification.name r) ->
  RnaQuantificationSet.addRnaQuant connect check_localId self
    (RnaQuantification_record r)
  = Raise (RnaQuantificationNotFoundException (RnaQuantification.name r)).
Proof.
  intros Hconnect Habsent. unfold RnaQuantificationSet.addRnaQuant.
  change (getitem (RnaQuantification_record r) "name")
    with (Return (PyStr (RnaQuantification.name r))).
  rewrite bind_bind_Return, check_localId_str, bind_bind_Return.
  by rewrite (RNASeqResult_populateFromFile_absent _ _ _ db).
Qed.

Lemma for_each_addRnaQuant (rows : list RnaQuantification.row)
  (self : RnaQuantificationSet.t) (db : Db) :
  connect (RnaQuantificationSet._dbFilePath self) = Return db ->
  (forall r, r ∈ rows ->
     exists r', r' ∈ RnaQuantification_rows db
                /\ RnaQuantification.id r' = RnaQuantification.name r) ->
  (forall id_ q, RnaQuantificationSet._rnaQuantIdMap self !! id_ = Some q ->
                 stored (RnaQuantificationSet._dbFilePath self) db id_ q) ->
  exists self',
    for_each (RnaQuantification_record <$> rows)
      (RnaQuantificationSet.addRnaQuant connect check_localId) self
    = Return self'
    /\ RnaQuantificationSet.super self' = RnaQuantificationSet.super self
    /\ RnaQuantificationSet._dbFilePath self'
       = RnaQuantificationSet._dbFilePath self
    /\ RnaQuantificationSet._db self' = RnaQuantificationSet._db self
    /\ RnaQuantificationSet._rnaQuantIds self'
       = RnaQuantificationSet._rnaQuantIds self
         ++ ((fun r =>
                AbstractRNAQuantificationSet.getId
                  (RnaQuantificationSet.super self)
                ++ [PyStr (RnaQuantification.name r)]) <$> rows)
    /\ (forall id_ q,
          RnaQuantificationSet._rnaQuantIdMap self' !! id_ = Some q ->
          stored (RnaQuantificationSet._dbFilePath self) db id_ q)
    /\ (forall id_,
          is_Some (RnaQuantificationSet._rnaQuantIdMap self !! id_)
          \/ id_ ∈ ((fun r =>
                       AbstractRNAQuantificationSet.getId
                         (RnaQuantificationSet.super self)
                       ++ [PyStr (RnaQuantification.name r)]) <$> rows) <->
          is_Some (RnaQuantificationSet._rnaQuantIdMap self' !! id_)).
Proof.
  revert self. induction rows as [|r rows IH]; intros self Hconnect Hrows Hmap.
  - exists self. cbn. rewrite app_nil_r. repeat (split; [done|]).
    intros id_. split; [|by left].
    intros [Hid|Hid]; [done|by apply elem_of_nil in Hid].
  - destruct (addRnaQuant_found self r db Hconnect)
      as (q & Hstep & Hq); [apply Hrows; left|].
    cbn [fmap list_fmap for_each]. rewrite Hstep, bind_bind_Return.
    match goal with
    | |- context [for_each _ _ ?s] => destruct (IH s) as
          (self' & Hloop & Hsuper & Hpath & Hdb & Hids & Hstored & Hdom)
    end.
    + exact Hconnect.
    + intros r' Hr'. apply Hrows. by right.
    + cbn. intros id_ q' Hlookup.
      apply lookup_insert_Some in Hlookup as [[<- <-]|[_ Hlookup]].
      * unfold stored. by destruct Hq as (? & ? & ?).
      * by apply Hmap.
    + exists self'. split; [exact Hloop|].
      cbn in Hsuper, Hpath, Hdb, Hids, Hstored, Hdom.
      repeat (split; [done|]). split; [|split; [done|]].
      * rewrite Hids, <- app_assoc. done.
      * intros id_. rewrite <- Hdom, elem_of_cons.
        rewrite lookup_insert. case_decide as Hkey.
        -- subst id_. split; [intros _; left; by eexists|].
           intros _. right. by left.
        -- split.
           ++ intros [Hid|[Hid|Hid]]; [by left|by destruct Hkey|by right].
           ++ intros [Hid|Hid]; [by left|]. right. by right.
Qed.

Lemma populateFromFile_populated parentContainer (name : string)
  (dataUrl : option string) (db : Db) :
  connect dataUrl = Return db ->
  (forall r, r ∈ RnaQuantification_rows db ->
     exists r', r' ∈ RnaQuantification_rows db
                /\ RnaQuantification.id r' = RnaQuantification.name r) ->
  exists populated,
    RnaQuantificationSet.populateFromFile connect check_localId
      (RnaQuantificationSet.__init__ parentContainer name) dataUrl
    = Return populated
    /\ RnaQuantificationSet.super populated
       = AbstractRNAQuantificationSet.__init__ parentContainer name
    /\ RnaQuantificationSet._dbFilePath populated = dataUrl
    /\ RnaQuantificationSet._db populated
       = Some {| SqliteRNABackend._dbconn := db |}
    /\ RnaQuantificationSet._rnaQuantIds populated
       = (fun r =>
            datamodel.container_getId parentContainer
            ++ [PyStr name; PyStr (RnaQuantification.name r)])
         <$> RnaQuantification_rows db
    /\ (forall id_ q,
          RnaQuantificationSet._rnaQuantIdMap populated !! id_ = Some q ->
          stored dataUrl db id_ q)
    /\ (forall id_,
          id_ ∈ RnaQuantificationSet._rnaQuantIds populated <->
          is_Some (RnaQuantificationSet._rnaQuantIdMap populated !! id_)).
Proof.
  intros Hconnect Hrows.
  unfold RnaQuantificationSet.populateFromFile, RnaQuantificationSet.open_.
  rewrite Hconnect, !bind_bind_Return.
  unfold RnaQuantificationSet.addRnaQuants.
  cbn [RnaQuantificationSet._db SqliteRNABackend.enter].
  rewrite bind_bind_Return, searchRnaQuantifications_all, bind_bind_Return.
  cbn [SqliteRNABackend._dbconn].
  match goal with
  | |- context [for_each _ _ ?s] =>
      destruct (for_each_addRnaQuant (RnaQuantification_rows db) s db)
        as (populated & Hloop & Hsuper & Hpath & Hdb & Hids & Hstored & Hdom)
  end.
  - exact Hconnect.
  - exact Hrows.
  - cbn. intros id_ q Hlookup. by rewrite lookup_empty in Hlookup.
  - exists populated. split; [exact Hloop|].
    cbn in Hsuper, Hpath, Hdb, Hids, Hstored, Hdom.
    repeat (split; [done|]).
    assert (Hids' :
      RnaQuantificationSet._rnaQuantIds populated
      = (fun r =>
           datamodel.container_getId parentContainer
           ++ [PyStr name; PyStr (RnaQuantification.name r)])
        <$> RnaQuantification_rows db).
    { rewrite Hids. apply list_fmap_ext. intros i r _.
      unfold AbstractRNAQuantificationSet.getId, datamodel.getId. cbn.
      by rewrite <- app_assoc. }
    split; [exact Hids'|]. split; [exact Hstored|].
    intros id_. rewrite <- Hdom, Hids. split; [by right|].
    intros [[q Hq]|Hid]; [by rewrite lookup_empty in Hq|done].
Qed.

(** X19. Populating a new set from a store in which the name of every
    quantification is the id of a quantification adds one quantification
    for each row of table [RnaQuantification], in store order: the set
    counts as many quantifications as the table has rows, each known under
    the id of the set followed by the name of its row, and
    [getRnaQuantifications] returns them all, each stored under its own
    id and reading the store file of the set. *)
Theorem X19_populateFromFile_adds_every_row parentContainer (name : string)
  (dataUrl : option string) (db : Db) :
  connect dataUrl = Return db ->
  (forall r, r ∈ RnaQuantification_rows db ->
     exists r', r' ∈ RnaQuantification_rows db
                /\ RnaQuantification.id r' = RnaQuantification.name r) ->
  exists populated quantifications,
    RnaQuantificationSet.populateFromFile connect check_localId
      (RnaQuantificationSet.__init__ parentContainer name) dataUrl
    = Return populated
    /\ RnaQuantificationSet.getDataUrl populated = dataUrl
    /\ RnaQuantificationSet.getNumRnaQuantifications populated
       = length (RnaQuantification_rows db)
    /\ RnaQuantificationSet.getRnaQuantifications populated
       = Found quantifications
    /\ Forall2
         (fun q r =>
            AbstractRNAQuantification.getId (RNASeqResult.super q)
            = datamodel.container_getId parentContainer
              ++ [PyStr name; PyStr (RnaQuantification.name r)]
            /\ RNASeqResult.getDataUrl q = dataUrl
            /\ RNASeqResult._db q
               = Some {| SqliteRNABackend._dbconn := db |})
         quantifications (RnaQuantification_rows db).
Proof.
  intros Hconnect Hrows.
  destruct (populateFromFile_populated parentContainer name dataUrl db
              Hconnect Hrows)
    as (populated & Hpopulate & _ & Hpath & _ & Hids & Hstored & Hdom).
  destruct (dict_getitems_Found (stored dataUrl db)
              (RnaQuantificationSet._rnaQuantIdMap populated)
              (RnaQuantificationSet._rnaQuantIds populated))
    as (quantifications & Hget & Hall).
  { apply Forall_forall. intros id_ Hid.
    destruct (proj1 (Hdom id_) Hid) as [q Hq]. exists q. split; [exact Hq|].
    by apply Hstored. }
  exists populated, quantifications. split; [exact Hpopulate|].
  split; [exact Hpath|]. split.
  { unfold RnaQuantificationSet.getNumRnaQuantifications.
    by rewrite Hids, length_fmap. }
  split; [exact Hget|].
  rewrite Hids in Hall. apply Forall2_fmap_r in Hall.
  eapply Forall2_impl; [exact Hall|].
  intros q r (Hid & Hq & Hdb). done.
Qed.

(** X20. The loop of [addRnaQuants] looks each quantification up by the
    [name] column of its row, used as an id. When the rows before a row
    resolve and the name of that row is the id of no row, populating the
    set raises [RnaQuantificationNotFoundException] with that name. *)
Theorem X20_populateFromFile_name_not_an_id parentContainer (name : string)
  (dataUrl : option string) (db : Db)
  (before : list RnaQuantification.row) (r : RnaQuantification.row)
  (after : list RnaQuantification.row) :
  connect dataUrl = Return db ->
  RnaQuantification_rows db = before ++ r :: after ->
  (forall b, b ∈ before ->
     exists r', r' ∈ RnaQuantification_rows db
                /\ RnaQuantification.id r' = RnaQuantification.name b) ->
  (forall r', r' ∈ RnaQuantification_rows db ->
              RnaQuantification.id r' <> RnaQuantification.name r) ->
  RnaQuantificationSet.populateFromFile connect check_localId
    (RnaQuantificationSet.__init__ parentContainer name) dataUrl
  = Raise (RnaQuantificationNotFoundException (RnaQuantification.name r)).
Proof.
  intros Hconnect Hrows Hbefore Habsent.
  unfold RnaQuantificationSet.populateFromFile, RnaQuantificationSet.open_.
  rewrite Hconnect, !bind_bind_Return.
  unfold RnaQuantificationSet.addRnaQuants.
  cbn [RnaQuantificationSet._db SqliteRNABackend.enter].
  rewrite bind_bind_Return, searchRnaQuantifications_all, bind_bind_Return.
  cbn [SqliteRNABackend._dbconn]. rewrite Hrows, fmap_app, for_each_app.
  match goal with
  | |- context [for_each (_ <$> before) _ ?s] =>
      destruct (for_each_addRnaQuant before s db)
        as (self' & Hloop & _ & Hpath & _)
  end.
  - exact Hconnect.
  - exact Hbefore.
  - cbn. intros id_ q Hlookup. by rewrite lookup_empty in Hlookup.
  - rewrite Hloop, bind_bind_Return. cbn [fmap list_fmap for_each].
    rewrite (addRnaQuant_absent self' r db); [done| |exact Habsent].
    rewrite Hpath. exact Hconnect.
Qed.

(** X21. In a set populated as in X19, [getRnaQuantificationByIndex]
    reads the list of ids the way a Python list is read: an index from 0
    up to the number of rows counts from the first row, an index from -1
    down to minus that number counts from the last, and both give the
    quantification stored under the id of that row; any other index is an
    [IndexError]. *)
Theorem X21_getRnaQuantificationByIndex parentContainer (name : string)
  (dataUrl : option string) (db : Db) populated (index : Z) :
  connect dataUrl = Return db ->
  (forall r, r ∈ RnaQuantification_rows db ->
     exists r', r' ∈ RnaQuantification_rows db
                /\ RnaQuantification.id r' = RnaQuantification.name r) ->
  RnaQuantificationSet.populateFromFile connect check_localId
    (RnaQuantificationSet.__init__ parentContainer name) dataUrl
  = Return populated ->
  let n := Z.of_nat (length (RnaQuantification_rows db)) in
  ((- n <= index < n)%Z ->
   exists q r,
     RnaQuantificationSet.getRnaQuantificationByIndex populated index
     = Found q
     /\ RnaQuantification_rows db !! Z.to_nat (index mod n) = Some r
     /\ AbstractRNAQuantification.getId (RNASeqResult.super q)
        = datamodel.container_getId parentContainer
          ++ [PyStr name; PyStr (RnaQuantification.name r)])
  /\ ((index < - n \/ n <= index)%Z ->
      RnaQuantificationSet.getRnaQuantificationByIndex populated index
      = IndexError).
Proof.
  intros Hconnect Hrows Hpopulated n.
  destruct (populateFromFile_populated parentContainer name dataUrl db
              Hconnect Hrows)
    as (populated' & Hpopulate & _ & _ & _ & Hids & Hstored & Hdom).
  rewrite Hpopulated in Hpopulate. injection Hpopulate as <-.
  assert (Hlen : Z.of_nat (length (RnaQuantificationSet._rnaQuantIds populated))
                 = n) by (by rewrite Hids, length_fmap).
  unfold RnaQuantificationSet.getRnaQuantificationByIndex. split.
  - intros Hrange.
    destruct (list_getitem_Found
                (RnaQuantificationSet._rnaQuantIds populated) index)
      as (id_ & Hfound & Hlookup); [lia|].
    rewrite Hfound. rewrite Hlen in Hlookup.
    destruct (proj1 (Hdom id_)) as [q Hq];
      [by apply list_elem_of_lookup_2 in Hlookup|].
    rewrite Hids, list_lookup_fmap in Hlookup.
    destruct (RnaQuantification_rows db !! Z.to_nat (index mod n))
      as [r|] eqn:Hr; [|done].
    injection Hlookup as <-. exists q, r.
    unfold dict_getitem. rewrite Hq. split; [done|]. split; [done|].
    by destruct (Hstored _ _ Hq) as (? & _).
  - intros Hrange. rewrite list_getitem_IndexError; [done|lia].
Qed.

(** X22. Populating a new quantification from a store file that has a row
    with its local id as id records the data URL and takes the name and
    the description of such a row; the compound id stays the one the
    constructor gave, and the populated quantification lists expression
    levels without raising. When no row has the local id, populating
    raises [RnaQuantificationNotFoundException] with it. *)
Theorem X22_RNASeqResult_populateFromFile parentContainer (localId : string)
  (dataUrl : option string) (db : Db) :
  connect dataUrl = Return db ->
  ((exists r, r ∈ RnaQuantification_rows db
              /\ RnaQuantification.id r = localId) ->
   exists populated r,
     r ∈ RnaQuantification_rows db
     /\ RnaQuantification.id r = localId
     /\ RnaQuantificationSet.RNASeqResult_populateFromFile connect
          (RNASeqResult.__init__ parentContainer localId) dataUrl
        = Return populated
     /\ RNASeqResult.getDataUrl populated = dataUrl
     /\ AbstractRNAQuantification.getId (RNASeqResult.super populated)
        = datamodel.container_getId parentContainer ++ [PyStr localId]
     /\ AbstractRNAQuantification._name (RNASeqResult.super populated)
        = PyStr (RnaQuantification.name r)
     /\ AbstractRNAQuantification._description (RNASeqResult.super populated)
        = PyStr (RnaQuantification.description r)
     /\ forall rnaQuantID pageToken pageSize threshold featureIds,
          exists levels,
            RNASeqResult.getExpressionLevels populated rnaQuantID pageToken
              pageSize threshold featureIds
            = Return levels)
  /\ ((forall r, r ∈ RnaQuantification_rows db ->
                 RnaQuantification.id r <> localId) ->
      RnaQuantificationSet.RNASeqResult_populateFromFile connect
        (RNASeqResult.__init__ parentContainer localId) dataUrl
      = Raise (RnaQuantificationNotFoundException localId)).
Proof.
  intros Hconnect. split.
  - intros Hsome.
    destruct (RNASeqResult_populateFromFile_found parentContainer localId
                dataUrl db Hconnect Hsome)
      as (populated & r & Hr & Hid & Hpopulate & Hgetid & Hname & Hdescr
          & Hpath & Hdb).
    exists populated, r. repeat (split; [done|]).
    intros rnaQuantID pageToken pageSize threshold featureIds.
    rewrite (getExpressionLevels_unfold _ _ _ _ _ _ _ Hdb).
    erewrite comprehension_fmap_Return
      by (intros r'; apply ExpressionLevel_init_row).
    by eexists.
  - apply RNASeqResult_populateFromFile_absent, Hconnect.
Qed.

(** X25. In a set populated as in X19, the keys of the map are the ids of
    the list: [getRnaQuantification] finds, for the id of the set followed
    by the name of a row, the quantification stored under that very id,
    and raises the [KeyError] of the id for every other id. *)
Theorem X25_getRnaQuantification parentContainer (name : string)
  (dataUrl : option string) (db : Db) populated
  (rnaQuantificationId : datamodel.CompoundId) :
  connect dataUrl = Return db ->
  (forall r, r ∈ RnaQuantification_rows db ->
     exists r', r' ∈ RnaQuantification_rows db
                /\ RnaQuantification.id r' = RnaQuantification.name r) ->
  RnaQuantificationSet.populateFromFile connect check_localId
    (RnaQuantificationSet.__init__ parentContainer name) dataUrl
  = Return populated ->
  ((exists r,
      r ∈ RnaQuantification_rows db
      /\ rnaQuantificationId
         = datamodel.container_getId parentContainer
           ++ [PyStr name; PyStr (RnaQuantification.name r)]) ->
   exists q,
     RnaQuantificationSet.getRnaQuantification populated rnaQuantificationId
     = Found q
     /\ AbstractRNAQuantification.getId (RNASeqResult.super q)
        = rnaQuantificationId)
  /\ ((forall r,
         r ∈ RnaQuantification_rows db ->
         rnaQuantificationId
         <> datamodel.container_getId parentContainer
            ++ [PyStr name; PyStr (RnaQuantification.name r)]) ->
      RnaQuantificationSet.getRnaQuantification populated rnaQuantificationId
      = KeyError_id rnaQuantificationId).
Proof.
  intros Hconnect Hrows Hpopulated.
  destruct (populateFromFile_populated parentContainer name dataUrl db
              Hconnect Hrows)
    as (populated' & Hpopulate & _ & _ & _ & Hids & Hstored & Hdom).
  rewrite Hpopulated in Hpopulate. injection Hpopulate as <-.
  unfold RnaQuantificationSet.getRnaQuantification, dict_getitem. split.
  - intros (r & Hr & ->).
    destruct (proj1 (Hdom (datamodel.container_getId parentContainer
                           ++ [PyStr name; PyStr (RnaQuantification.name r)])))
      as [q Hq].
    { rewrite Hids. apply list_elem_of_fmap. by exists r. }
    exists q. rewrite Hq. split; [done|].
    by destruct (Hstored _ _ Hq) as (? & _).
  - intros Hother.
    destruct (RnaQuantificationSet._rnaQuantIdMap populated
                !! rnaQuantificationId) as [q|] eqn:Hq; [|done].
    exfalso. assert (Hin : rnaQuantificationId
                           ∈ RnaQuantificationSet._rnaQuantIds populated)
      by (apply Hdom; by eexists).
    rewrite Hids in Hin. apply list_elem_of_fmap in Hin as (r & -> & Hr).
    by apply (Hother r).
Qed.

End RnaQuantificationSet_properties.

Lemma Files_db_log_names_resolve (r : RnaQuantification.row) :
  r ∈ RnaQuantification_rows Sample.db_log ->
  exists r', r' ∈ RnaQuantification_rows Sample.db_log
             /\ RnaQuantification.id r' = RnaQuantification.name r.
Proof.
  intros Hr. exists r. split; [exact Hr|].
  apply elem_of_cons in Hr as [->|Hr]; [reflexivity|].
  apply list_elem_of_singleton in Hr. by rewrite Hr.
Qed.

Lemma X19_populateFromFile_adds_every_row_witness :
  exists populated quantifications,
    RnaQuantificationSet.populateFromFile Files.connect Files.check_localId
      (RnaQuantificationSet.__init__
         {| datamodel.container_getId := [PyStr "dataset"] |} "set")
      (Some "rnaQuant-log.db")
    = Return populated
    /\ RnaQuantificationSet.getNumRnaQuantifications populated = 2
    /\ RnaQuantificationSet.getRnaQuantifications populated
       = Found quantifications.
Proof.
  destruct (X19_populateFromFile_adds_every_row Files.connect
              Files.check_localId (fun s => eq_refl)
              {| datamodel.container_getId := [PyStr "dataset"] |} "set"
              (Some "rnaQuant-log.db") Sample.db_log eq_refl
              Files_db_log_names_resolve)
    as (populated & quantifications & Hpopulate & _ & Hnum & Hget & _).
  exists populated, quantifications.
  split; [exact Hpopulate|]. split; [exact Hnum|exact Hget].
Defined.

Lemma X20_populateFromFile_name_not_an_id_witness :
  RnaQuantificationSet.populateFromFile Files.connect Files.check_localId
    (RnaQuantificationSet.__init__
       {| datamodel.container_getId := [PyStr "dataset"] |} "set")
    (Some "rnaQuant-renamed.db")
  = Raise (RnaQuantificationNotFoundException "third").
Proof.
  apply (X20_populateFromFile_name_not_an_id Files.connect
           Files.check_localId (fun s => eq_refl)
           {| datamodel.container_getId := [PyStr "dataset"] |} "set"
           (Some "rnaQuant-renamed.db") Files.db_renamed [Sample.rq1]
           Files.rq3 []).
  - reflexivity.
  - reflexivity.
  - intros b Hb. apply list_elem_of_singleton in Hb. rewrite Hb.
    exists Sample.rq1. split; [left|reflexivity].
  - intros r' Hr'. apply elem_of_cons in Hr' as [->|Hr']; [discriminate|].
    apply list_elem_of_singleton in Hr'. rewrite Hr'. discriminate.
Defined.

Lemma X21_getRnaQuantificationByIndex_witness :
  exists populated q,
    RnaQuantificationSet.populateFromFile Files.connect Files.check_localId
      (RnaQuantificationSet.__init__
         {| datamodel.container_getId := [PyStr "dataset"] |} "set")
      (Some "rnaQuant-log.db")
    = Return populated
    /\ RnaQuantificationSet.getRnaQuantificationByIndex populated (-1)
       = Found q
    /\ AbstractRNAQuantification.getId (RNASeqResult.super q)
       = [PyStr "dataset"; PyStr "set"; PyStr "rq2"].
Proof.
  destruct (populateFromFile_populated Files.connect Files.check_localId
              (fun s => eq_refl)
              {| datamodel.container_getId := [PyStr "dataset"] |} "set"
              (Some "rnaQuant-log.db") Sample.db_log eq_refl
              Files_db_log_names_resolve)
    as (populated & Hpopulate & _).
  destruct (X21_getRnaQuantificationByIndex Files.connect
              Files.check_localId (fun s => eq_refl)
              {| datamodel.container_getId := [PyStr "dataset"] |} "set"
              (Some "rnaQuant-log.db") Sample.db_log populated (-1)
              eq_refl Files_db_log_names_resolve Hpopulate)
    as [Hin _].
  destruct Hin as (q & r & Hfound & Hr & Hid); [cbn; lia|].
  exists populated, q. split; [exact Hpopulate|]. split; [exact Hfound|].
  vm_compute in Hr. injection Hr as <-. exact Hid.
Defined.

Lemma X22_RNASeqResult_populateFromFile_witness :
  exists populated,
    RnaQuantificationSet.RNASeqResult_populateFromFile Files.connect
      (RNASeqResult.__init__ Sample.rnaQuantificationSet "rq2")
      (Some "rnaQuant-log.db")
    = Return populated
    /\ AbstractRNAQuantification._description (RNASeqResult.super populated)
       = PyStr "second quantification".
Proof.
  destruct (X22_RNASeqResult_populateFromFile Files.connect
              Sample.rnaQuantificationSet "rq2" (Some "rnaQuant-log.db")
              Sample.db_log eq_refl)
    as [Hfound _].
  destruct Hfound as (populated & r & Hr & Hid & Hpopulate & _ & _ & _
                      & Hdescription & _).
  - exists Sample.rq2. split; [right; left|reflexivity].
  - exists populated. split; [exact Hpopulate|].
    rewrite Hdescription.
    apply elem_of_cons in Hr as [->|Hr]; [discriminate Hid|].
    apply list_elem_of_singleton in Hr. by rewrite Hr.
Defined.

Lemma X25_getRnaQuantification_witness :
  exists populated,
    RnaQuantificationSet.populateFromFile Files.connect Files.check_localId
      (RnaQuantificationSet.__init__
         {| datamodel.container_getId := [PyStr "dataset"] |} "set")
      (Some "rnaQuant-log.db")
    = Return populated
    /\ RnaQuantificationSet.getRnaQuantification populated
         [PyStr "dataset"; PyStr "set"; PyStr "rq7"]
       = KeyError_id [PyStr "dataset"; PyStr "set"; PyStr "rq7"].
Proof.
  destruct (populateFromFile_populated Files.connect Files.check_localId
              (fun s => eq_refl)
              {| datamodel.container_getId := [PyStr "dataset"] |} "set"
              (Some "rnaQuant-log.db") Sample.db_log eq_refl
              Files_db_log_names_resolve)
    as (populated & Hpopulate & _).
  exists populated. split; [exact Hpopulate|].
  apply (X25_getRnaQuantification Files.connect Files.check_localId
           (fun s => eq_refl)
           {| datamodel.container_getId := [PyStr "dataset"] |} "set"
           (Some "rnaQuant-log.db") Sample.db_log populated
           [PyStr "dataset"; PyStr "set"; PyStr "rq7"] eq_refl
           Files_db_log_names_resolve Hpopulate).
  intros r Hr. apply elem_of_cons in Hr as [->|Hr]; [discriminate|].
  apply list_elem_of_singleton in Hr. rewrite Hr. discriminate.
Defined.

(** X23. For an id that no row of table [Expression] has,
    [RnaQuantificationSet.getExpressionLevel] of a populated set raises
    [ExpressionLevelNotFoundException] with that id: the exception of the
    lookup comes through before any expression level is built. *)
Theorem X23_set_getExpressionLevel_not_found (self : RnaQuantificationSet.t)
  dataSource (expression_level_id : string) :
  RnaQuantificationSet._db self = Some dataSource ->
  (forall r,
     r ∈ Expression_rows (SqliteRNABackend._dbconn dataSource) ->
     Expression.id r <> expression_level_id) ->
  RnaQuantificationSet.getExpressionLevel self expression_level_id
  = Raise (ExpressionLevelNotFoundException expression_level_id).
Proof.
  intros Hdb Habsent. unfold RnaQuantificationSet.getExpressionLevel.
  rewrite Hdb. cbn [SqliteRNABackend.enter]. rewrite bind_bind_Return.
  by rewrite getExpressionLevelById_absent.
Qed.

Lemma X23_set_getExpressionLevel_not_found_witness :
  RnaQuantificationSet.getExpressionLevel
    {| RnaQuantificationSet.super :=
         AbstractRNAQuantificationSet.__init__
           {| datamodel.container_getId := [PyStr "dataset"] |} "set";
       RnaQuantificationSet._dbFilePath := Some "rnaQuant.db";
       RnaQuantificationSet._db := Some Sample.dataSource;
       RnaQuantificationSet._rnaQuantIdMap := ∅;
       RnaQuantificationSet._rnaQuantIds := [] |} "e9"
  = Raise (ExpressionLevelNotFoundException "e9").
Proof.
  apply (X23_set_getExpressionLevel_not_found
           {| RnaQuantificationSet.super :=
                AbstractRNAQuantificationSet.__init__
                  {| datamodel.container_getId := [PyStr "dataset"] |} "set";
              RnaQuantificationSet._dbFilePath := Some "rnaQuant.db";
              RnaQuantificationSet._db := Some Sample.dataSource;
              RnaQuantificationSet._rnaQuantIdMap := ∅;
              RnaQuantificationSet._rnaQuantIds := [] |}
           Sample.dataSource "e9").
  - reflexivity.
  - intros r Hr. apply elem_of_cons in Hr as [->|Hr]; [discriminate|].
    apply list_elem_of_singleton in Hr. rewrite Hr. discriminate.
Defined.

(** X24. [searchExpressionLevelsInDb] takes the feature ids as a set: two
    lists with the same members, in any order and with any repetitions,
    give the same result. *)
Theorem X24_feature_ids_as_a_set self (rnaQuantId : string)
  (featureIds1 featureIds2 : list string) pageToken pageSize threshold :
  (forall featureId, featureId ∈ featureIds1 <-> featureId ∈ featureIds2) ->
  SqliteRNABackend.searchExpressionLevelsInDb self rnaQuantId
    (Some featureIds1) pageToken pageSize threshold
  = SqliteRNABackend.searchExpressionLevelsInDb self rnaQuantId
      (Some featureIds2) pageToken pageSize threshold.
Proof.
  intros Hsame. rewrite !search_Expression. unfold Spec.ScopedList.
  do 3 f_equal. apply filter_ext_bool. intros r. unfold Spec.scoped.
  f_equal.
  destruct featureIds1 as [|f1 fs1], featureIds2 as [|f2 fs2]; cbn [id_filter].
  - done.
  - exfalso. eapply elem_of_nil, Hsame. left.
  - exfalso. eapply elem_of_nil, Hsame. left.
  - apply bool_decide_ext, Hsame.
Qed.

Lemma X24_feature_ids_as_a_set_witness :
  SqliteRNABackend.searchExpressionLevelsInDb Sample.dataSource "rq1"
    (Some ["f2"; "f1"; "f2"]) None None None
  = SqliteRNABackend.searchExpressionLevelsInDb Sample.dataSource "rq1"
      (Some ["f1"; "f2"]) None None None.
Proof.
  apply (X24_feature_ids_as_a_set Sample.dataSource "rq1"
           ["f2"; "f1"; "f2"] ["f1"; "f2"] None None None).
  intros featureId. rewrite !elem_of_cons, !elem_of_nil. tauto.
Defined.
